(** * science_jubilee: the pipette tool ([science_jubilee/tools/Pipette.py])

    A shallow embedding of the [Pipette] class and of its tip iterator,
    with the checks of the tool's specification proved or refuted on it.

    Conventions of the embedding.
    - Python numbers (volumes, positions, offsets) are exact rationals
      [Q]; [==] on numbers is [Qeq]. Integers that count or index
      (the iterator's cursor, loop counts, speeds) are [Z]. The rounding
      of binary floating point is outside this model of the motion
      protocol; the volume converter, whose arithmetic is a subject of
      its own, is also given on binary64 floats ([Binary64.vol2move]).
    - An attribute that may hold [None] is an [option].
    - A method is a computation over the world (the tool's attributes,
      the machine and the log of the commands sent to the machine). A
      raised exception is a result [Err]; the world reached when it is
      raised is kept, as Python keeps every mutation made before a raise.
    - The machine ([self._machine]) and [Labware._getxyz] are not part of
      this file of the repository: they are an interface and a parameter. *)

From Stdlib Require Import ZArith QArith Qround List String Bool Lia.
From Stdlib Require PrimFloat SpecFloat FloatOps FloatAxioms.
Import ListNotations.

Set Implicit Arguments.
Local Open Scope Q_scope.

(** ** Exceptions and results *)

Inductive exn : Type :=
| ToolStateError (msg : string)
| ToolConfigurationError (msg : string)
| ToolNotActive
| StopIteration
| IndexError
| AttributeError (attr : string)
| TypeError (msg : string)
| ValueError (msg : string).

Inductive result (A : Type) : Type :=
| Ok (a : A)
| Err (e : exn).

Arguments Ok {A} a.
Arguments Err {A} e.

(** ** Python primitives used by the class *)

(** [l[i]] on a Python list: negative indices count from the end, and an
    index outside [-len, len) raises [IndexError] (here [None]). *)
Definition py_getitem {A} (l : list A) (i : Z) : option A :=
  let n := Z.of_nat (List.length l) in
  if ((0 <=? i) && (i <? n))%Z then nth_error l (Z.to_nat i)
  else if ((- n <=? i) && (i <? 0))%Z then nth_error l (Z.to_nat (n + i))
  else None.

(** Rounding to the nearest integer, ties to the even one. *)
Definition round_half_even (q : Q) : Z :=
  let f := Qfloor q in
  match Qcompare (q - inject_Z f) (1 # 2) with
  | Lt => f
  | Gt => (f + 1)%Z
  | Eq => if Z.even f then f else (f + 1)%Z
  end.

(** [round(q)] *)
Definition py_round (q : Q) : Q := inject_Z (round_half_even q).

(** [round(q, 2)] *)
Definition py_round2 (q : Q) : Q := inject_Z (round_half_even (q * 100)) / 100.

(** ** Labware data read by the pipette *)

Module Well.
Record t : Type := mk
  { x : Q; y : Q; z : Q; top_ : Q; diameter : Q }.
End Well.

Module Labware.
(** A tip rack: its wells in order, and the geometry of its tips. *)
Record t : Type := mk
  { wells : list Well.t; tip_length : Q; tip_overlap : Q }.
End Labware.

(** A resolved coordinate: a number or [None]. *)
Definition coord : Type := option Q.

(** [Union[Well, Tuple, Location]] *)
Inductive location : Type :=
| LWell (w : Well.t)
| LTuple (x y z : coord)
| LLocation (_point : Q * Q * Q) (_labware : Well.t).

(** [Union[Labware, list]], the argument of [add_tiprack]. *)
Inductive tiprack_t : Type :=
| RackOne (rack : Labware.t)
| RackList (racks : list Labware.t).

(** ** class pipette_iterator *)

Module pipette_iterator.

Record t : Type := mk { tiprack : list Well.t; index : Z }.

(** [__init__] *)
Definition init (rack : list Well.t) : t := mk rack 0%Z.

(** [next]: the read [self.tiprack[self.index]] and the increment are
    inside the [try]; an [IndexError] becomes [StopIteration]. *)
Definition next (self : t) : result Well.t * t :=
  match py_getitem (tiprack self) (index self) with
  | Some r => (Ok r, mk (tiprack self) (index self + 1)%Z)
  | None => (Err StopIteration, self)
  end.

(** [prev]: the cursor is decremented first, then tested. *)
Definition prev (self : t) : result Well.t * t :=
  let self' := mk (tiprack self) (index self - 1)%Z in
  if (index self' <? 0)%Z then (Err StopIteration, self')
  else match py_getitem (tiprack self') (index self') with
       | Some r => (Ok r, self')
       | None => (Err IndexError, self')
       end.

(** The invariant the specification states for the cursor. *)
Definition cursor_in_bounds (self : t) : Prop :=
  (0 <= index self <= Z.of_nat (List.length (tiprack self)))%Z.

End pipette_iterator.

(** ** The machine interface *)

(** Keyword arguments of [Machine.move_to]. *)
Record move_to_args : Type := mk_move_to
  { mt_x : coord; mt_y : coord; mt_z : coord; mt_v : coord;
    mt_s : option Z; mt_param : option string; mt_wait : bool }.

(** The G-code texts the class builds, kept structured. *)
Inductive gcode_t : Type :=
| G2 (x y : Q) (z : option Q) (i j : Q)
| M400
| G10 (p : Z) (z : option Q).

(** A command sent to the machine. *)
Inductive cmd : Type :=
| safe_z_movement
| move_to (a : move_to_args)
| move (dz v : coord)
| gcode (g : gcode_t).

Definition move_to_xy (x y : coord) : cmd :=
  move_to (mk_move_to x y None None None None false).
Definition move_to_z (z : coord) : cmd :=
  move_to (mk_move_to None None z None None None false).
Definition move_to_v (v : Q) (s : Z) : cmd :=
  move_to (mk_move_to None None None (Some v) (Some s) None false).

(** [get_position()], with the axes the class reads. *)
Record position : Type := mk_position
  { pos_X : Q; pos_Y : Q; pos_Z : Q; pos_V : Q }.

(** What the class needs from [self._machine]. *)
Class Machine (M : Type) : Type :=
  { exec : cmd -> M -> M;
    get_position : M -> position;
    deck_safe_z : M -> Q }.

(** ** The tool's attributes *)

(** Attributes set by [Tool.__init__] (called through [super().__init__])
    and by the machine when it loads the tool. [tools/Tool.py] is not part
    of this file: the record is the argument of [__init__] below.
    [tool_offset] holds [None] until the machine has set it. *)
Record Tool : Type := mk_Tool
  { index : Z; name : string; brand : string; model : string;
    max_volume : Q; min_volume : Q;
    zero_position : Q; blowout_position : Q; drop_tip_position : Q;
    mm_to_ul : Q;
    is_active_tool : bool;
    tool_offset : option Q }.

(** Attributes of a [Pipette]. [tipiterator] and [tiprack] exist only
    after [add_tiprack]. *)
Record Pipette : Type := mk_Pipette
  { base : Tool;
    has_tip : bool;
    first_available_tip : option Well.t;
    is_primed : bool;
    current_well : option Well.t;
    tipiterator : option pipette_iterator.t;
    tiprack : option tiprack_t }.

(** [Pipette.__init__] *)
Definition __init__ (super : Tool) : Pipette :=
  {| base := super;
     has_tip := false;
     first_available_tip := None;
     is_primed := false;
     current_well := None;
     tipiterator := None;
     tiprack := None |}.

Definition set_has_tip (b : bool) (p : Pipette) : Pipette :=
  mk_Pipette (base p) b (first_available_tip p) (is_primed p)
             (current_well p) (tipiterator p) (tiprack p).
Definition set_first_available_tip (t : option Well.t) (p : Pipette) : Pipette :=
  mk_Pipette (base p) (has_tip p) t (is_primed p)
             (current_well p) (tipiterator p) (tiprack p).
Definition set_is_primed (b : bool) (p : Pipette) : Pipette :=
  mk_Pipette (base p) (has_tip p) (first_available_tip p) b
             (current_well p) (tipiterator p) (tiprack p).
Definition set_current_well (w : option Well.t) (p : Pipette) : Pipette :=
  mk_Pipette (base p) (has_tip p) (first_available_tip p) (is_primed p)
             w (tipiterator p) (tiprack p).
Definition set_tipiterator (i : option pipette_iterator.t) (p : Pipette) : Pipette :=
  mk_Pipette (base p) (has_tip p) (first_available_tip p) (is_primed p)
             (current_well p) i (tiprack p).
Definition set_tiprack (r : option tiprack_t) (p : Pipette) : Pipette :=
  mk_Pipette (base p) (has_tip p) (first_available_tip p) (is_primed p)
             (current_well p) (tipiterator p) r.

(** [vol2move] *)
Definition vol2move (self : Pipette) (vol : Q) : Q :=
  let dv := vol * mm_to_ul (base self) in
  dv.

(** ** The volume converter on binary64 floats *)

Module Binary64.

Import PrimFloat.

(** [vol2move] on the numbers Python computes with as soon as the volume
    or the factor is a [float]: the product is the IEEE 754 binary64 one. *)
Definition vol2move (mm_to_ul vol : float) : float :=
  let dv := (vol * mm_to_ul)%float in
  dv.


End Binary64.

(** ** Computations over the world *)

Record world (M : Type) : Type := mk_world
  { self : Pipette; machine : M; log : list cmd }.

Definition St (M A : Type) : Type := world M -> result A * world M.

Definition ret {M A} (a : A) : St M A := fun w => (Ok a, w).

Definition bind {M A B} (m : St M A) (k : A -> St M B) : St M B :=
  fun w => match m w with
           | (Ok a, w') => k a w'
           | (Err e, w') => (Err e, w')
           end.

Definition raise {M A} (e : exn) : St M A := fun w => (Err e, w).

Definition lift {M A} (r : result A) : St M A := fun w => (r, w).

Definition get_self {M} : St M Pipette := fun w => (Ok (self w), w).

Definition set_self {M} (f : Pipette -> Pipette) : St M unit :=
  fun w => (Ok tt, mk_world (f (self w)) (machine w) (log w)).

Definition pass {M} : St M unit := ret tt.

Declare Scope st_scope.
Delimit Scope st_scope with st.
Notation "x <- m ;; k" := (bind m (fun x => k))
  (at level 61, m at next level, right associativity) : st_scope.
Notation "' pat <- m ;; k" := (bind m (fun x => match x with pat => k end))
  (at level 61, pat pattern, m at next level, right associativity) : st_scope.
Notation "m ;; k" := (bind m (fun _ => k))
  (at level 61, right associativity) : st_scope.
Local Open Scope st_scope.

(** [for _ in range(n): body] and [for x in l: body x] *)
Fixpoint for_range {M} (n : nat) (body : St M unit) : St M unit :=
  match n with
  | O => pass
  | S k => body ;; for_range k body
  end.

Fixpoint for_each {M A} (l : list A) (body : A -> St M unit) : St M unit :=
  match l with
  | [] => pass
  | a :: l' => body a ;; for_each l' body
  end.

(** A call on [self._machine] that moves or configures the machine: it is
    logged and the machine takes it. *)
Definition send {M} `{Machine M} (c : cmd) : St M unit :=
  fun w => (Ok tt, mk_world (self w) (exec c (machine w)) (log w ++ [c])).

(** The machine after a list of commands, first command first. *)
Definition run_cmds {M} `{Machine M} (l : list cmd) (m : M) : M :=
  fold_left (fun m c => exec c m) l m.

(** [self._machine.get_position()] *)
Definition read_position {M} `{Machine M} : St M position :=
  fun w => (Ok (get_position (machine w)), w).

(** [self._machine.deck.safe_z] *)
Definition read_deck_safe_z {M} `{Machine M} : St M Q :=
  fun w => (Ok (deck_safe_z (machine w)), w).

(** [self.current_well.<attr>]: an [AttributeError] when the attribute
    holds [None]. *)
Definition current_well_attr {M} (f : Well.t -> Q) (attr : string) : St M Q :=
  s <- get_self ;;
  match current_well s with
  | Some w => ret (f w)
  | None => raise (AttributeError attr)
  end.

(** A computation that never takes a primed tool back to unprimed,
    whether it returns or raises. *)
Definition keeps_primed {M A} (m : St M A) : Prop :=
  forall w : world M,
    is_primed (self w) = true -> is_primed (self (snd (m w))) = true.

(** A computation that returns and keeps the current well. *)
Definition returns_keeping_well {M} (cw : Well.t) (m : St M unit) : Prop :=
  forall w : world M,
    current_well (self w) = Some cw ->
    fst (m w) = Ok tt /\ current_well (self (snd (m w))) = Some cw.

(** ** class Pipette *)

Section PipetteClass.

Context {M : Type} `{Machine M}.

(** [Labware._getxyz] ([labware/Labware.py], not part of this file): it
    resolves a location to [(x, y, z)] or raises. *)
Variable _getxyz : option location -> result (coord * coord * coord).

Definition no_tip_msg : string :=
  "Error: No tip is attached. Cannot complete this action".
Definition tip_attached_msg : string :=
  "Error: Pipette already equipped with a tip.".
Definition not_in_well_msg : string :=
  "Error: Pipette shuold be in a well before it can stir".
Definition no_tip_to_drop_msg : string :=
  "Error: No pipette tip attached to drop".

(** [tip_check]: the decorator of the tip-required methods. *)
Definition tip_check (func : St M unit) : St M unit :=
  s <- get_self ;;
  if Bool.eqb (has_tip s) false
  then raise (ToolStateError no_tip_msg)
  else func.

(** Modelled from the spec: the decorator [requires_active_tool] of
    [tools/Tool.py], which is not part of this file. An operation on a tool
    that is not the active one fails with [ToolNotActive] before any
    motion; otherwise the method runs. *)
Definition requires_active_tool {A} (func : St M A) : St M A :=
  s <- get_self ;;
  if is_active_tool (base s) then func else raise ToolNotActive.

(** [self.current_well = ...] as [aspirate], [dispense] and [transfer]
    do it according to the type of the location. *)
Definition record_well (l : location) : St M unit :=
  match l with
  | LWell w => set_self (set_current_well (Some w))
  | LLocation _ lab => set_self (set_current_well (Some lab))
  | LTuple _ _ _ => pass
  end.

(** [prime] *)
Definition prime (s : Z) : St M unit :=
  requires_active_tool (
    t <- get_self ;;
    send (move_to (mk_move_to None None None (Some (zero_position (base t)))
                              (Some s) None true)) ;;
    set_self (set_is_primed true)).

(** The block [if self.is_primed == True: pass / else: self.prime()],
    which opens [_aspirate] (lines 119-122) and precedes the loop of
    [transfer] (lines 246-249). *)
Definition prime_if_unprimed : St M unit :=
  t <- get_self ;;
  if Bool.eqb (is_primed t) true then pass else prime 2500.

(** [_aspirate] *)
Definition _aspirate (vol : Q) (s : Z) : St M unit :=
  requires_active_tool (
    prime_if_unprimed ;;
    t <- get_self ;;
    let dv := vol2move t vol * -1 in
    pos <- read_position ;;
    let end_pos := pos_V pos + dv in
    send (move_to_v end_pos s)).

(** [aspirate] *)
Definition aspirate (vol : Q) (loc : location) (s : Z) : St M unit :=
  requires_active_tool (tip_check (
    ' (x, y, z) <- lift (_getxyz (Some loc)) ;;
    record_well loc ;;
    send safe_z_movement ;;
    send (move_to_xy x y) ;;
    send (move_to_z z) ;;
    _aspirate vol s)).

(** [_dispense] *)
Definition _dispense (vol : Q) (s : Z) : St M unit :=
  requires_active_tool (tip_check (
    t <- get_self ;;
    let dv := vol2move t vol in
    pos <- read_position ;;
    let end_pos := pos_V pos + dv in
    send (move_to_v end_pos s))).

(** The z that [dispense] travels to: [z + 10] when a [Well] is given and
    the resolved z equals the well's own z. *)
Definition dispense_z (loc : location) (z : coord) : coord :=
  match loc with
  | LWell w =>
      match z with
      | Some z0 => if Qeq_bool z0 (Well.z w) then Some (z0 + 10) else z
      | None => z
      end
  | _ => z
  end.

(** [dispense] *)
Definition dispense (vol : Q) (loc : location) (s : Z) : St M unit :=
  requires_active_tool (tip_check (
    ' (x, y, z) <- lift (_getxyz (Some loc)) ;;
    record_well loc ;;
    let z := dispense_z loc z in
    send safe_z_movement ;;
    send (move_to_xy x y) ;;
    send (move_to_z z) ;;
    _dispense vol s)).

(** [blowout] *)
Definition blowout (s : Z) : St M unit :=
  requires_active_tool (tip_check (
    top <- current_well_attr Well.top_ "top_" ;;
    send (move_to_z (Some (top + 5))) ;;
    t <- get_self ;;
    send (move_to_v (blowout_position (base t)) s) ;;
    prime 2500)).

(** [air_gap] *)
Definition air_gap (vol : Q) : St M unit :=
  requires_active_tool (tip_check (
    t <- get_self ;;
    let dv := vol2move t vol * -1 in
    top <- current_well_attr Well.top_ "top_" ;;
    send (move_to_z (Some (top + 20))) ;;
    send (move None (Some (-1 * dv))))).

(** [mix] *)
Definition mix (vol : Q) (n : Z) (s : Z) : St M unit :=
  requires_active_tool (tip_check (
    top <- current_well_attr Well.top_ "top_" ;;
    send (move_to_z (Some (top + 2))) ;;
    prime 2500 ;;
    z <- current_well_attr Well.z "z" ;;
    send (move_to_z (Some z)) ;;
    for_range (Z.to_nat n) (_aspirate vol s ;; prime s))).

(** The [destination_well] argument of [transfer]: one location or a list. *)
Inductive destination : Type :=
| DestOne (l : location)
| DestList (l : list location).

(** [transfer]. [mix_before] and [mix_after] are passed to [mix] position
    by position: element 0 as [vol], element 1 as [n]. *)
Definition transfer (vol : Q) (source_well : location)
    (destination_well : destination) (s : Z) (blowout_ : option location)
    (mix_before mix_after : option (Q * Z)) (new_tip : string) : St M unit :=
  requires_active_tool (tip_check (
    t <- get_self ;;
    let vol_ := vol2move t vol in
    ' (xs, ys, zs) <- lift (_getxyz (Some source_well)) ;;
    prime_if_unprimed ;;
    let destination_well :=
      match destination_well with
      | DestOne l => [l]
      | DestList l => l
      end in
    for_each destination_well (fun well =>
      ' (xd, yd, zd) <- lift (_getxyz (Some well)) ;;
      send safe_z_movement ;;
      send (move_to_xy xs ys) ;;
      send (move_to_z zs) ;;
      record_well source_well ;;
      _aspirate vol_ s ;;
      match mix_before with
      | Some (m0, m1) => mix m0 m1 5000
      | None => pass
      end ;;
      send safe_z_movement ;;
      send (move_to_xy xd yd) ;;
      send (move_to_z zd) ;;
      record_well well ;;
      _dispense vol_ s ;;
      match mix_after with
      | Some (m0, m1) => mix m0 m1 5000
      | None => pass
      end ;;
      match blowout_ with
      | Some _ => blowout 3000
      | None => pass
      end))).

(** Truth value of the [height] argument of [stir]: [None] and [0] are
    false. *)
Definition truthy (height : option Q) : bool :=
  match height with
  | Some h => negb (Qeq_bool h 0)
  | None => false
  end.

(** [stir] *)
Definition stir (n_times : Z) (height : option Q) : St M unit :=
  requires_active_tool (tip_check (
    wz <- current_well_attr Well.z "z" ;;
    let z := wz + (1 # 2) in
    pos <- read_position ;;
    let x_ := pos_X pos in
    let y_ := pos_Y pos in
    let z_ := pos_Z pos in
    wx <- current_well_attr Well.x "x" ;;
    wy <- current_well_attr Well.y "y" ;;
    (if negb (Qeq_bool x_ (py_round wx)) && negb (Qeq_bool y_ (py_round2 wy))
     then raise (ToolStateError not_in_well_msg)
     else if negb (Qeq_bool z_ (py_round2 z))
          then send (move_to_z (Some z))
          else pass) ;;
    d <- current_well_attr Well.diameter "diameter" ;;
    let radius := d / 2 - d / 6 in
    for_range (Z.to_nat n_times) (
      x_sp <- current_well_attr Well.x "x" ;;
      y_sp <- current_well_attr Well.y "y" ;;
      let I := -1 * radius in
      let J := 0 in
      if truthy height
      then
        let Z_ := z + match height with Some h => h | None => 0 end in
        send (gcode (G2 x_sp y_sp (Some Z_) I J)) ;;
        send (gcode M400) ;;
        send (move_to_z (Some z))
      else
        send (gcode (G2 x_sp y_sp None I J)) ;;
        send (gcode M400)))).

(** [update_z_offset]. With [tool_offset] still [None], the subtraction of
    the branch [tip == True] raises [TypeError], and the other branch
    sends [None] as the offset. *)
Definition update_z_offset (tip : option bool) : St M unit :=
  t <- get_self ;;
  rack <- match tiprack t with
          | Some r => ret r
          | None => raise (AttributeError "tiprack")
          end ;;
  tip_offset <- match rack with
                | RackList l =>
                    match py_getitem l 0 with
                    | Some r => ret (Labware.tip_length r - Labware.tip_overlap r)
                    | None => raise IndexError
                    end
                | RackOne r => ret (Labware.tip_length r - Labware.tip_overlap r)
                end ;;
  new_z <- match tip with
           | Some true =>
               match tool_offset (base t) with
               | Some off => ret (Some (off - tip_offset))
               | None =>
                   raise (TypeError
                     "unsupported operand type(s) for -: 'NoneType' and 'float'")
               end
           | _ => ret (tool_offset (base t))
           end ;;
  send (gcode (G10 (index (base t)) new_z)).

(** [self.tipiterator.next()] *)
Definition tipiterator_next : St M Well.t :=
  t <- get_self ;;
  match tipiterator t with
  | None => raise (AttributeError "tipiterator")
  | Some it =>
      let (r, it') := pipette_iterator.next it in
      set_self (set_tipiterator (Some it')) ;;
      lift r
  end.

(** [add_tiprack]: on a list, [for rack in len(tiprack)] iterates over an
    integer, which raises [TypeError]. The iterator indexes the rack
    ([Labware.__getitem__], in [labware/Labware.py]); an integer index is
    taken to select among the rack's wells in order. *)
Definition add_tiprack (rack : tiprack_t) : St M unit :=
  match rack with
  | RackList _ => raise (TypeError "'int' object is not iterable")
  | RackOne r =>
      set_self (set_tipiterator (Some (pipette_iterator.init (Labware.wells r)))) ;;
      set_self (set_tiprack (Some rack))
  end ;;
  tip <- tipiterator_next ;;
  set_self (set_first_available_tip (Some tip)).

(** [_pickup_tip] *)
Definition _pickup_tip (z : coord) : St M unit :=
  requires_active_tool (
    t <- get_self ;;
    if Bool.eqb (has_tip t) false
    then send (move_to (mk_move_to None None z None (Some 800%Z) (Some "H4"%string) false))
    else raise (ToolStateError tip_attached_msg)).

(** The tip [pickup_tip] goes to: its argument, or the next available
    tip when the argument is [None]. *)
Definition pickup_target (t : Pipette) (tip_ : option location) : option location :=
  match tip_ with
  | None => option_map LWell (first_available_tip t)
  | Some l => Some l
  end.

(** [pickup_tip] *)
Definition pickup_tip (tip_ : option location) : St M unit :=
  requires_active_tool (
    t <- get_self ;;
    let tip := pickup_target t tip_ in
    ' (x, y, z) <- lift (_getxyz tip) ;;
    send safe_z_movement ;;
    send (move_to_xy x y) ;;
    _pickup_tip z ;;
    set_self (set_has_tip true) ;;
    update_z_offset (Some true) ;;
    safe_z <- read_deck_safe_z ;;
    send (move_to_z (Some (safe_z + 10)))).

(** [_drop_tip] *)
Definition _drop_tip : St M unit :=
  requires_active_tool (
    t <- get_self ;;
    if Bool.eqb (has_tip t) true
    then send (move_to_v (drop_tip_position (base t)) 4000)
    else raise (ToolConfigurationError no_tip_to_drop_msg)).

(** [return_tip] *)
Definition return_tip (loc : option location) : St M unit :=
  requires_active_tool (
    t <- get_self ;;
    ' (x, y, z) <- lift (match loc with
                         | None => _getxyz (option_map LWell (first_available_tip t))
                         | Some l => _getxyz (Some l)
                         end) ;;
    send safe_z_movement ;;
    send (move_to_xy x y) ;;
    send (move (Some (-25)) None) ;;
    _drop_tip ;;
    send (move (Some 25) None) ;;
    prime 2500 ;;
    set_self (set_has_tip false) ;;
    update_z_offset (Some false)).

(** [increment_tip] *)
Definition increment_tip : St M unit :=
  tip <- tipiterator_next ;;
  set_self (set_first_available_tip (Some tip)).

(** [drop_tip] *)
Definition drop_tip (loc : location) : St M unit :=
  requires_active_tool (tip_check (
    ' (x, y, z) <- lift (_getxyz (Some loc)) ;;
    send safe_z_movement ;;
    match x, y with
    | None, None => pass
    | _, _ => send (move_to_xy x y)
    end ;;
    _drop_tip ;;
    prime 2500 ;;
    set_self (set_has_tip false) ;;
    update_z_offset (Some false) ;;
    tip <- tipiterator_next ;;
    set_self (set_first_available_tip (Some tip)))).

(** ** The calls a client can make on a tool *)

Inductive op : Type :=
| call_prime (s : Z)
| call__aspirate (vol : Q) (s : Z)
| call_aspirate (vol : Q) (loc : location) (s : Z)
| call__dispense (vol : Q) (s : Z)
| call_dispense (vol : Q) (loc : location) (s : Z)
| call_transfer (vol : Q) (source_well : location)
    (destination_well : destination) (s : Z) (blowout_ : option location)
    (mix_before mix_after : option (Q * Z)) (new_tip : string)
| call_blowout (s : Z)
| call_air_gap (vol : Q)
| call_mix (vol : Q) (n : Z) (s : Z)
| call_stir (n_times : Z) (height : option Q)
| call_update_z_offset (tip : option bool)
| call_add_tiprack (rack : tiprack_t)
| call__pickup_tip (z : coord)
| call_pickup_tip (tip_ : option location)
| call_return_tip (loc : option location)
| call__drop_tip
| call_increment_tip
| call_drop_tip (loc : location).

Definition call (o : op) : St M unit :=
  match o with
  | call_prime s => prime s
  | call__aspirate vol s => _aspirate vol s
  | call_aspirate vol loc s => aspirate vol loc s
  | call__dispense vol s => _dispense vol s
  | call_dispense vol loc s => dispense vol loc s
  | call_transfer vol src dst s b mb ma nt => transfer vol src dst s b mb ma nt
  | call_blowout s => blowout s
  | call_air_gap vol => air_gap vol
  | call_mix vol n s => mix vol n s
  | call_stir n h => stir n h
  | call_update_z_offset tip => update_z_offset tip
  | call_add_tiprack rack => add_tiprack rack
  | call__pickup_tip z => _pickup_tip z
  | call_pickup_tip tip_ => pickup_tip tip_
  | call_return_tip loc => return_tip loc
  | call__drop_tip => _drop_tip
  | call_increment_tip => increment_tip
  | call_drop_tip loc => drop_tip loc
  end.

(** A client's session: the calls one after the other, each on the world
    the previous one left, whether it returned or raised. *)
Fixpoint session (ops : list op) (w : world M) : world M :=
  match ops with
  | [] => w
  | o :: ops' => session ops' (snd (call o w))
  end.

(** The tip-required operations of the specification. *)
Definition tip_required (o : op) : bool :=
  match o with
  | call_aspirate _ _ _ | call_dispense _ _ _ | call_blowout _
  | call_air_gap _ | call_mix _ _ _ | call_stir _ _ | call_drop_tip _
  | call_transfer _ _ _ _ _ _ _ _ => true
  | _ => false
  end.

End PipetteClass.

(** ** A reference environment to run the class on concrete inputs *)

(** Modelled from the spec: the Labware Directory
    ([Labware._getxyz], not part of this file) resolves a location
    descriptor, which is a well reference, an (x, y, z) tuple or a
    location-within-labware wrapper, to (x, y, z). *)
Definition getxyz_ref (l : option location) : result (coord * coord * coord) :=
  match l with
  | Some (LWell w) => Ok (Some (Well.x w), Some (Well.y w), Some (Well.z w))
  | Some (LTuple x y z) => Ok (x, y, z)
  | Some (LLocation (x, y, z) _) => Ok (Some x, Some y, Some z)
  | None => Err (ValueError "Location should be of type Well or Tuple")
  end.

(** A machine that keeps the last commanded position of each axis. *)
Record axes : Type := mk_axes { ax_pos : position; ax_safe_z : Q }.

Definition or_else (c : coord) (q : Q) : Q :=
  match c with Some v => v | None => q end.

Definition axes_exec (c : cmd) (m : axes) : axes :=
  let p := ax_pos m in
  match c with
  | safe_z_movement =>
      mk_axes (mk_position (pos_X p) (pos_Y p) (ax_safe_z m) (pos_V p)) (ax_safe_z m)
  | move_to a =>
      mk_axes (mk_position (or_else (mt_x a) (pos_X p)) (or_else (mt_y a) (pos_Y p))
                           (or_else (mt_z a) (pos_Z p)) (or_else (mt_v a) (pos_V p)))
              (ax_safe_z m)
  | move dz v =>
      mk_axes (mk_position (pos_X p) (pos_Y p)
                           (pos_Z p + or_else dz 0) (pos_V p + or_else v 0))
              (ax_safe_z m)
  | gcode _ => m
  end.

#[export] Instance axes_machine : Machine axes :=
  {| exec := axes_exec; get_position := ax_pos; deck_safe_z := ax_safe_z |}.

(** ** Sample data *)

(** The pipette of the specification's scenario: maximum volume 300 uL,
    minimum volume 20 uL, conversion factor 0.1 mm/uL. *)
Definition p300 : Tool :=
  {| index := 0; name := "p300_single"; brand := "opentrons"; model := "gen2";
     max_volume := 300; min_volume := 20;
     zero_position := 48; blowout_position := 52; drop_tip_position := 60;
     mm_to_ul := 1 # 10;
     is_active_tool := true;
     tool_offset := Some 0 |}.

Definition well_A1 : Well.t := Well.mk 50 20 5 15 6.
Definition well_A2 : Well.t := Well.mk 59 20 5 15 6.
Definition tip_1 : Well.t := Well.mk 10 100 40 45 5.
Definition tip_2 : Well.t := Well.mk 19 100 40 45 5.
Definition tip_3 : Well.t := Well.mk 28 100 40 45 5.

Definition rack : Labware.t := Labware.mk [tip_1; tip_2; tip_3] 59 7.

(** The machine at rest at the origin, plunger at 48, safe height 100. *)
Definition axes0 : axes := mk_axes (mk_position 0 0 100 48) 100.

(** A new pipette on that machine, nothing sent yet. *)
Definition world0 : world axes := mk_world (__init__ p300) axes0 [].

(** A new pipette that the machine has not made its active tool. *)
Definition p300_parked : Tool :=
  {| index := 0; name := "p300_single"; brand := "opentrons"; model := "gen2";
     max_volume := 300; min_volume := 20;
     zero_position := 48; blowout_position := 52; drop_tip_position := 60;
     mm_to_ul := 1 # 10;
     is_active_tool := false;
     tool_offset := None |}.

Definition world_parked : world axes := mk_world (__init__ p300_parked) axes0 [].

(** The same with a tip on, a rack attached and the plunger primed. *)
Definition tipped : Pipette :=
  {| base := p300;
     has_tip := true;
     first_available_tip := Some tip_1;
     is_primed := true;
     current_well := None;
     tipiterator := Some (pipette_iterator.mk (Labware.wells rack) 1%Z);
     tiprack := Some (RackOne rack) |}.

Definition world_tipped : world axes := mk_world tipped axes0 [].

(** The same over well A1, as after an aspirate there. *)
Definition world_over_A1 : world axes :=
  mk_world (set_current_well (Some well_A1) tipped)
           (mk_axes (mk_position 50 20 5 48) 100) [].

(** Tip in well A1 according to [current_well], but the machine is at
    x = 0 (y is the well's). *)
Definition world_off_x : world axes :=
  mk_world (set_current_well (Some well_A1) tipped)
           (mk_axes (mk_position 0 20 100 48) 100) [].

(** The machine is at y = 0 (x is the well's). *)
Definition world_off_y : world axes :=
  mk_world (set_current_well (Some well_A1) tipped)
           (mk_axes (mk_position 50 0 100 48) 100) [].

(** A rack attached and its first tip held ready, no tip on yet. *)
Definition world_racked : world axes :=
  mk_world (set_has_tip false tipped) axes0 [].

(** A tip on, and the inventory used up: the cursor is past the last tip. *)
Definition world_last_tip : world axes :=
  mk_world (set_tipiterator
              (Some (pipette_iterator.mk (Labware.wells rack) 3%Z)) tipped)
           axes0 [].

(** A tip on, the plunger not primed yet. *)
Definition world_unprimed : world axes :=
  mk_world (set_is_primed false tipped) axes0 [].

(** A rack without tips. *)
Definition empty_rack : Labware.t := Labware.mk [] 59 7.

(** The plunger targets of the absolute [move_to] commands of a log. *)
Definition plunger_targets (l : list cmd) : list Q :=
  flat_map (fun c => match c with
                     | move_to a => match mt_v a with Some v => [v] | None => [] end
                     | _ => []
                     end) l.

(** ** Notions used to state further properties *)

(** A computation that leaves the attribute [f] of the tool as it found
    it, whether it returns or raises. *)
Definition keeps {M A B} (f : Pipette -> B) (m : St M A) : Prop :=
  forall w : world M, f (self (snd (m w))) = f (self w).

(** [n] calls of [next] in a row: their results, first call first, and the
    iterator they leave. *)
Fixpoint nexts (n : nat) (it : pipette_iterator.t)
  : list (result Well.t) * pipette_iterator.t :=
  match n with
  | O => ([], it)
  | S k =>
      let (r, it') := pipette_iterator.next it in
      let (rs, it'') := nexts k it' in
      (r :: rs, it'')
  end.

(** The tip inventory of a tool: its iterator and the tip it holds ready. *)
Definition inventory (p : Pipette) : option pipette_iterator.t * option Well.t :=
  (tipiterator p, first_available_tip p).

(** The calls with an assignment to [self.has_tip] in their body. *)
Definition assigns_has_tip (o : op) : bool :=
  match o with
  | call_pickup_tip _ | call_return_tip _ | call_drop_tip _ => true
  | _ => false
  end.

(** The calls that assign [self.tipiterator] or [self.first_available_tip],
    or call [self.tipiterator.next()]. *)
Definition touches_inventory (o : op) : bool :=
  match o with
  | call_add_tiprack _ | call_increment_tip | call_drop_tip _ => true
  | _ => false
  end.

(** The calls with an assignment to [self.current_well] in their body. *)
Definition assigns_current_well (o : op) : bool :=
  match o with
  | call_aspirate _ _ _ | call_dispense _ _ _
  | call_transfer _ _ _ _ _ _ _ _ => true
  | _ => false
  end.

(** The absolute plunger move of [prime]. *)
Definition prime_move (p : Pipette) (s : Z) : cmd :=
  move_to (mk_move_to None None None (Some (zero_position (base p)))
                      (Some s) None true).

(** The probing move of [_pickup_tip]. *)
Definition probe_move (z : coord) : cmd :=
  move_to (mk_move_to None None z None (Some 800%Z) (Some "H4"%string) false).

(** The difference [tip_length - tip_overlap] that [update_z_offset]
    reads from a single rack. *)
Definition tip_offset_of (r : Labware.t) : Q :=
  Labware.tip_length r - Labware.tip_overlap r.

(** The well [aspirate], [dispense] and [transfer] record for a location:
    the well itself, the labware of a [Location], nothing for a tuple. *)
Definition well_of (l : location) (before : option Well.t) : option Well.t :=
  match l with
  | LWell w => Some w
  | LLocation _ lab => Some lab
  | LTuple _ _ _ => before
  end.

(** One mixing stroke as sent to the machine: the plunger move of
    [_aspirate] to [v], then the move of [prime]. *)
Definition stroke (p : Pipette) (s : Z) (v : Q) : list cmd :=
  [move_to_v v s; prime_move p s].

(** The strokes of [mix] as a machine in state [m] receives them: [n]
    times the plunger move of [_aspirate], from the position the machine
    reports at that moment by [- vol2move vol], followed by the move of
    [prime]. *)
Fixpoint mix_strokes {M} `{Machine M} (p : Pipette) (vol : Q) (s : Z)
    (n : nat) (m : M) : list cmd :=
  match n with
  | O => []
  | S k =>
      let v := pos_V (get_position m) + vol2move p vol * -1 in
      stroke p s v ++ mix_strokes p vol s k (run_cmds (stroke p s v) m)
  end.

(** The body of the loop of [transfer], for one destination [well]: the
    converted volume and the source coordinates are those computed before
    the loop. *)
Definition transfer_step {M} `{Machine M}
    (_getxyz : option location -> result (coord * coord * coord))
    (vol_ : Q) (source_well : location) (xs ys zs : coord) (s : Z)
    (blowout_ : option location) (mix_before mix_after : option (Q * Z))
    (well : location) : St M unit :=
  (' (xd, yd, zd) <- lift (_getxyz (Some well)) ;;
   send safe_z_movement ;;
   send (move_to_xy xs ys) ;;
   send (move_to_z zs) ;;
   record_well source_well ;;
   _aspirate vol_ s ;;
   match mix_before with
   | Some (m0, m1) => mix m0 m1 5000
   | None => pass
   end ;;
   send safe_z_movement ;;
   send (move_to_xy xd yd) ;;
   send (move_to_z zd) ;;
   record_well well ;;
   _dispense vol_ s ;;
   match mix_after with
   | Some (m0, m1) => mix m0 m1 5000
   | None => pass
   end ;;
   match blowout_ with
   | Some _ => blowout 3000
   | None => pass
   end)%st.

(** One turn of [stir] in the well [cw] as sent to the machine: the arc
    around the well's centre and the wait; with a height, the arc rises
    to [z + height] and the tip is taken back to [z], the well's z plus
    0.5. *)
Definition stir_turn (cw : Well.t) (height : option Q) : list cmd :=
  let z := Well.z cw + (1 # 2) in
  let radius := Well.diameter cw / 2 - Well.diameter cw / 6 in
  if truthy height
  then [gcode (G2 (Well.x cw) (Well.y cw)
                  (Some (z + match height with Some h => h | None => 0 end))
                  (-1 * radius) 0);
        gcode M400;
        move_to_z (Some z)]
  else [gcode (G2 (Well.x cw) (Well.y cw) None (-1 * radius) 0);
        gcode M400].

(** * Properties *)

(** ** Volume converter *)


Module Binary64Facts.

Import PrimFloat SpecFloat FloatOps FloatAxioms.

#[local] Set Warnings "-inexact-float".





End Binary64Facts.

(** ** Tip iterator *)

Lemma py_getitem_in_range {A} (l : list A) (i : Z) :
  (0 <= i < Z.of_nat (List.length l))%Z ->
  exists a, py_getitem l i = Some a.
Proof.
  intros Hi. unfold py_getitem.
  replace ((0 <=? i) && (i <? Z.of_nat (List.length l)))%Z with true
    by (symmetry; apply andb_true_intro; split;
        [apply Z.leb_le | apply Z.ltb_lt]; lia).
  destruct (nth_error l (Z.to_nat i)) eqn:E; [eauto|].
  apply nth_error_None in E. lia.
Qed.

Lemma py_getitem_at_length {A} (l : list A) :
  py_getitem l (Z.of_nat (List.length l)) = None.
Proof.
  unfold py_getitem.
  replace (Z.of_nat (List.length l) <? Z.of_nat (List.length l))%Z with false
    by (symmetry; apply Z.ltb_ge; lia).
  rewrite andb_false_r.
  replace (Z.of_nat (List.length l) <? 0)%Z with false
    by (symmetry; apply Z.ltb_ge; lia).
  rewrite andb_false_r. reflexivity.
Qed.

(** [next] keeps the cursor within [0, length], whether it returns or
    raises. *)
Lemma next_keeps_cursor_in_bounds (it : pipette_iterator.t) :
  pipette_iterator.cursor_in_bounds it ->
  pipette_iterator.cursor_in_bounds (snd (pipette_iterator.next it)).
Proof.
  unfold pipette_iterator.cursor_in_bounds, pipette_iterator.next.
  intros Hb.
  destruct (py_getitem (pipette_iterator.tiprack it) (pipette_iterator.index it)) eqn:E;
    simpl; [|exact Hb].
  destruct (Z.eq_dec (pipette_iterator.index it)
                     (Z.of_nat (List.length (pipette_iterator.tiprack it)))) as [Heq|Hne].
  - rewrite Heq, py_getitem_at_length in E. discriminate.
  - lia.
Qed.

(** [next] with the cursor at the end raises [StopIteration] and leaves
    the cursor where it is. *)
Lemma next_at_end (it : pipette_iterator.t) :
  pipette_iterator.index it = Z.of_nat (List.length (pipette_iterator.tiprack it)) ->
  pipette_iterator.next it = (Err StopIteration, it).
Proof.
  intros Heq. unfold pipette_iterator.next.
  rewrite Heq, py_getitem_at_length. reflexivity.
Qed.

(** [prev] with the cursor at [0] raises [StopIteration] after it has
    moved the cursor to [-1]. *)
Lemma prev_at_zero (it : pipette_iterator.t) :
  pipette_iterator.index it = 0%Z ->
  pipette_iterator.prev it
  = (Err StopIteration, pipette_iterator.mk (pipette_iterator.tiprack it) (-1)).
Proof.
  intros H0. unfold pipette_iterator.prev. simpl. rewrite H0. reflexivity.
Qed.

(** C9. On a new iterator over three tips (cursor 0, inside [0, 3]) [prev]
    raises [StopIteration] and leaves the cursor at -1, outside the
    bounds; the next call of [next] then hands out the last tip of the
    rack. *)
Theorem prev_at_zero_breaks_cursor_bounds_C9 :
  let it := pipette_iterator.init [tip_1; tip_2; tip_3] in
  pipette_iterator.cursor_in_bounds it /\
  fst (pipette_iterator.prev it) = Err StopIteration /\
  pipette_iterator.index (snd (pipette_iterator.prev it)) = (-1)%Z /\
  ~ pipette_iterator.cursor_in_bounds (snd (pipette_iterator.prev it)) /\
  fst (pipette_iterator.next (snd (pipette_iterator.prev it))) = Ok tip_3.
Proof.
  cbv zeta. repeat split.
  - unfold pipette_iterator.cursor_in_bounds; simpl; lia.
  - unfold pipette_iterator.cursor_in_bounds; simpl; lia.
  - unfold pipette_iterator.cursor_in_bounds; simpl; lia.
Qed.

(** ** The decorators *)

Section PipetteFacts.

Context {M : Type} `{Machine M}.
Variable _getxyz : option location -> result (coord * coord * coord).

Local Open Scope st_scope.

Lemma requires_active_tool_active {A} (func : St M A) (w : world M) :
  is_active_tool (base (self w)) = true ->
  requires_active_tool func w = func w.
Proof.
  intros Ha. unfold requires_active_tool, bind, get_self. rewrite Ha. reflexivity.
Qed.

(** A tool that is not the active one does nothing at all. *)
Lemma requires_active_tool_inactive {A} (func : St M A) (w : world M) :
  is_active_tool (base (self w)) = false ->
  requires_active_tool func w = (Err ToolNotActive, w).
Proof.
  intros Ha. unfold requires_active_tool, bind, get_self. rewrite Ha. reflexivity.
Qed.

Lemma tip_check_no_tip (func : St M unit) (w : world M) :
  has_tip (self w) = false ->
  tip_check func w = (Err (ToolStateError no_tip_msg), w).
Proof.
  intros Ht. unfold tip_check, bind, get_self. rewrite Ht. reflexivity.
Qed.

Lemma tip_check_tip (func : St M unit) (w : world M) :
  has_tip (self w) = true ->
  tip_check func w = func w.
Proof.
  intros Ht. unfold tip_check, bind, get_self. rewrite Ht. reflexivity.
Qed.

(** Both decorators pass on a tool that is active and carries a tip. *)
Lemma decorators_pass (func : St M unit) (w : world M) :
  is_active_tool (base (self w)) = true ->
  has_tip (self w) = true ->
  requires_active_tool (tip_check func) w = func w.
Proof.
  intros Ha Ht. rewrite requires_active_tool_active by exact Ha.
  apply tip_check_tip, Ht.
Qed.

(** ** Tip-required operations *)

(** On an active tool, the tip check is the first thing a tip-required
    operation does. *)
Lemma call_without_tip (o : op) (w : world M) :
  tip_required o = true ->
  has_tip (self w) = false ->
  is_active_tool (base (self w)) = true ->
  call _getxyz o w = (Err (ToolStateError no_tip_msg), w).
Proof.
  intros Ho Ht Ha.
  destruct o; simpl in Ho; try discriminate; simpl;
    unfold aspirate, dispense, transfer, blowout, air_gap, mix, stir, drop_tip;
    rewrite requires_active_tool_active by exact Ha;
    apply tip_check_no_tip, Ht.
Qed.

(** C3 (amended). A new pipette has no tip, and on a tool without a tip
    each of aspirate, dispense, blowout, air_gap, mix, stir, drop_tip and
    transfer raises and leaves the world as it was, so that nothing is
    sent to the machine: the no-tip [ToolStateError] when the tool is the
    active one, and the not-active error of the outer decorator when it
    is not. *)
Theorem tip_required_without_tip_C3 :
  (forall super : Tool, has_tip (__init__ super) = false) /\
  (forall (o : op) (w : world M),
      tip_required o = true ->
      has_tip (self w) = false ->
      call _getxyz o w
      = (Err (if is_active_tool (base (self w))
              then ToolStateError no_tip_msg
              else ToolNotActive),
         w)).
Proof.
  split; [reflexivity|].
  intros o w Ho Ht.
  destruct (is_active_tool (base (self w))) eqn:Ha.
  - apply call_without_tip; assumption.
  - destruct o; simpl in Ho; try discriminate; simpl;
      apply requires_active_tool_inactive, Ha.
Qed.

(** Whether the tool is the active one or not, a tip-required operation
    on a tool without a tip raises and leaves the world as it was. *)
Lemma tip_required_without_tip_no_motion (o : op) (w : world M) :
  tip_required o = true ->
  has_tip (self w) = false ->
  exists e : exn, call _getxyz o w = (Err e, w).
Proof.
  intros Ho Ht.
  destruct (is_active_tool (base (self w))) eqn:Ha.
  - exists (ToolStateError no_tip_msg).
    apply call_without_tip; assumption.
  - exists ToolNotActive.
    destruct o; simpl in Ho; try discriminate; simpl;
      apply requires_active_tool_inactive, Ha.
Qed.

(** ** Tip pickup *)

(** C1 (amended). On an active tool that carries a tip, [pickup_tip] on a
    tip location that resolves raises the tip-already-attached
    [ToolStateError] from [_pickup_tip]: the safe-z retract and the
    horizontal travel have been sent by then, the vertical probing move is
    not sent, and the tool's attributes are unchanged. *)
Theorem pickup_tip_with_tip_C1 (tip_ : option location) (w : world M)
    (x y z : coord) :
  has_tip (self w) = true ->
  is_active_tool (base (self w)) = true ->
  _getxyz (pickup_target (self w) tip_) = Ok (x, y, z) ->
  pickup_tip _getxyz tip_ w
  = (Err (ToolStateError tip_attached_msg),
     mk_world (self w)
              (exec (move_to_xy x y) (exec safe_z_movement (machine w)))
              (log w ++ [safe_z_movement; move_to_xy x y])).
Proof.
  intros Ht Ha Hxyz. unfold pickup_tip.
  rewrite requires_active_tool_active by exact Ha.
  unfold bind at 1. unfold get_self at 1.
  unfold bind at 1. unfold lift at 1. rewrite Hxyz.
  unfold bind, send, _pickup_tip, requires_active_tool, bind, get_self; simpl.
  rewrite Ha; simpl. rewrite Ht; simpl.
  rewrite <- app_assoc. reflexivity.
Qed.

(** When the tip location does not resolve, the resolver's exception is
    what [pickup_tip] raises, before any command. *)
Lemma pickup_tip_unresolved (tip_ : option location) (w : world M) (e : exn) :
  is_active_tool (base (self w)) = true ->
  _getxyz (pickup_target (self w) tip_) = Err e ->
  pickup_tip _getxyz tip_ w = (Err e, w).
Proof.
  intros Ha Hxyz. unfold pickup_tip.
  rewrite requires_active_tool_active by exact Ha.
  unfold bind at 1. unfold get_self at 1.
  unfold bind at 1. unfold lift at 1. rewrite Hxyz. reflexivity.
Qed.

(** ** Operations that read the current well *)

Lemma current_well_attr_none (f : Well.t -> Q) (attr : string) (w : world M) :
  current_well (self w) = None ->
  current_well_attr f attr w = (Err (AttributeError attr), w).
Proof.
  intros Hc. unfold current_well_attr, bind, get_self. rewrite Hc. reflexivity.
Qed.

Lemma current_well_attr_some (f : Well.t -> Q) (attr : string) (w : world M)
    (cw : Well.t) :
  current_well (self w) = Some cw ->
  current_well_attr f attr w = (Ok (f cw), w).
Proof.
  intros Hc. unfold current_well_attr, bind, get_self. rewrite Hc. reflexivity.
Qed.

(** C5 (amended). On an active tool with a tip and no current well,
    [blowout] and [air_gap] raise the [AttributeError] of the attribute
    [top_] read on [None]; nothing is sent to the machine and the world
    is unchanged. *)
Theorem no_current_well_C5 (w : world M) (s : Z) (vol : Q) :
  has_tip (self w) = true ->
  is_active_tool (base (self w)) = true ->
  current_well (self w) = None ->
  blowout s w = (Err (AttributeError "top_"), w) /\
  air_gap vol w = (Err (AttributeError "top_"), w).
Proof.
  intros Ht Ha Hc. unfold blowout, air_gap.
  rewrite !decorators_pass by assumption.
  split.
  - unfold bind at 1. rewrite current_well_attr_none by exact Hc. reflexivity.
  - unfold bind at 1. unfold get_self at 1.
    unfold bind at 1. rewrite current_well_attr_none by exact Hc. reflexivity.
Qed.

(** [stir] without a current well stops at its first line, the read of
    [self.current_well.z], before the position check that raises the
    [ToolStateError] its docstring announces. *)
Lemma stir_without_current_well (w : world M) (n_times : Z) (height : option Q) :
  has_tip (self w) = true ->
  is_active_tool (base (self w)) = true ->
  current_well (self w) = None ->
  stir n_times height w = (Err (AttributeError "z"), w).
Proof.
  intros Ht Ha Hc. unfold stir.
  rewrite decorators_pass by assumption.
  unfold bind at 1. rewrite current_well_attr_none by exact Hc. reflexivity.
Qed.

(** ** Running a method by hand *)

Ltac st_unfold :=
  unfold bind, get_self, set_self, send, read_position, read_deck_safe_z,
    lift, ret, pass, raise, record_well.

(** Unfolds the monad and rewrites with the equations on the tool's
    attributes found among the hypotheses, until the world is explicit. *)
Ltac st_run :=
  repeat (progress (st_unfold;
                    cbn [self machine log fst snd base has_tip is_primed
                         current_well first_available_tip tipiterator tiprack
                         set_has_tip set_is_primed set_current_well
                         set_first_available_tip set_tipiterator set_tiprack
                         Bool.eqb run_cmds fold_left];
                    repeat match goal with
                           | E : ?l = _ |- context [?l] => rewrite E
                           end)).

Lemma prime_if_unprimed_primed (w : world M) :
  is_primed (self w) = true ->
  prime_if_unprimed w = (Ok tt, w).
Proof.
  intros Hp. unfold prime_if_unprimed. st_run. reflexivity.
Qed.

(** [_aspirate] on a primed active tool is one plunger move, from the
    current position by [- vol2move vol]. *)
Lemma _aspirate_primed (vol : Q) (s : Z) (w : world M) :
  is_active_tool (base (self w)) = true ->
  is_primed (self w) = true ->
  _aspirate vol s w
  = send (move_to_v (pos_V (get_position (machine w)) + vol2move (self w) vol * -1) s) w.
Proof.
  intros Ha Hp. unfold _aspirate.
  rewrite requires_active_tool_active by exact Ha.
  unfold bind at 1. rewrite prime_if_unprimed_primed by exact Hp.
  reflexivity.
Qed.

(** [_dispense] on an active tool with a tip is one plunger move, from the
    current position by [vol2move vol]. *)
Lemma _dispense_tip (vol : Q) (s : Z) (w : world M) :
  is_active_tool (base (self w)) = true ->
  has_tip (self w) = true ->
  _dispense vol s w
  = send (move_to_v (pos_V (get_position (machine w)) + vol2move (self w) vol) s) w.
Proof.
  intros Ha Ht. unfold _dispense.
  rewrite decorators_pass by assumption. reflexivity.
Qed.

(** ** Dispense *)

Lemma dispense_z_equal (well : Well.t) (z : Q) :
  z == Well.z well -> dispense_z (LWell well) (Some z) = Some (z + 10).
Proof.
  intros Hz. simpl. apply Qeq_bool_iff in Hz. rewrite Hz. reflexivity.
Qed.

Lemma dispense_z_differs (well : Well.t) (z : Q) :
  ~ z == Well.z well -> dispense_z (LWell well) (Some z) = Some z.
Proof.
  intros Hz. simpl. destruct (Qeq_bool z (Well.z well)) eqn:E; [|reflexivity].
  apply Qeq_bool_iff in E. contradiction.
Qed.

(** A tuple or a location within a labware is used as resolved. *)
Lemma dispense_z_other (loc : location) (z : coord) :
  (forall well, loc <> LWell well) -> dispense_z loc z = z.
Proof.
  intros Hl. destruct loc; try reflexivity. exfalso. eapply Hl. reflexivity.
Qed.

(** [dispense_z] leaves every other case alone: a well whose resolved z
    differs from its own or is [None], a tuple, a location within a
    labware. *)
Lemma dispense_z_unchanged (loc : location) (z : coord) :
  ~ (exists (well : Well.t) (z0 : Q),
        loc = LWell well /\ z = Some z0 /\ z0 == Well.z well) ->
  dispense_z loc z = z.
Proof.
  intros Hn. destruct loc as [well| |]; try reflexivity.
  destruct z as [z0|]; [|reflexivity].
  apply dispense_z_differs. intros Hz. apply Hn. exists well, z0. auto.
Qed.

(** C7. [dispense] on an active tool with a tip, for a location of any
    kind that resolves to (x, y, z): the commands sent are the safe-z
    retract, the travel to (x, y), the travel to z' and the plunger move
    by [+ vol2move vol]. The z' travelled to is the resolved z plus 10
    when the location is a bare well and the resolved z equals the well's
    own z, and the resolved z as it is in every other case: a resolved z
    that differs from the well's, a tuple, a location within a labware. *)
Theorem dispense_travel_z_C7 (vol : Q) (loc : location) (s : Z) (w : world M)
    (x y z : coord) :
  has_tip (self w) = true ->
  is_active_tool (base (self w)) = true ->
  _getxyz (Some loc) = Ok (x, y, z) ->
  let travel :=
    [safe_z_movement; move_to_xy x y; move_to_z (dispense_z loc z)] in
  let v := pos_V (get_position (run_cmds travel (machine w)))
           + vol2move (self w) vol in
  (fst (dispense _getxyz vol loc s w) = Ok tt /\
   log (snd (dispense _getxyz vol loc s w))
   = log w ++ travel ++ [move_to_v v s]) /\
  (forall (well : Well.t) (z0 : Q),
      loc = LWell well -> z = Some z0 -> z0 == Well.z well ->
      dispense_z loc z = Some (z0 + 10)) /\
  (~ (exists (well : Well.t) (z0 : Q),
         loc = LWell well /\ z = Some z0 /\ z0 == Well.z well) ->
   dispense_z loc z = z).
Proof.
  intros Ht Ha Hxyz. cbv zeta.
  split; [|split].
  - destruct loc;
      (eassert (Hrun : dispense _getxyz vol _ s w = (Ok tt, _));
       [ unfold dispense; rewrite decorators_pass by assumption;
         unfold bind at 1; unfold lift at 1; rewrite Hxyz;
         st_run; rewrite _dispense_tip by (cbn; assumption);
         st_run; reflexivity
       | rewrite Hrun; split; [reflexivity|];
         cbn [snd log]; rewrite <- !app_assoc; reflexivity ]).
  - intros well z0 -> -> Hz. apply dispense_z_equal, Hz.
  - apply dispense_z_unchanged.
Qed.

(** ** Air gap *)

(** [air_gap] on an active tool with a tip and a current well: a travel
    to 20 above the well's top, then a relative plunger move of
    [-1 * (vol2move vol * -1)]. *)
Lemma air_gap_commands (vol : Q) (w : world M) (cw : Well.t) :
  has_tip (self w) = true ->
  is_active_tool (base (self w)) = true ->
  current_well (self w) = Some cw ->
  air_gap vol w
  = (Ok tt,
     mk_world (self w)
       (run_cmds [move_to_z (Some (Well.top_ cw + 20));
                  move None (Some (-1 * (vol2move (self w) vol * -1)))]
                 (machine w))
       (log w ++ [move_to_z (Some (Well.top_ cw + 20));
                  move None (Some (-1 * (vol2move (self w) vol * -1)))])).
Proof.
  intros Ht Ha Hc. unfold air_gap.
  rewrite decorators_pass by assumption.
  unfold current_well_attr. st_run.
  rewrite <- !app_assoc. reflexivity.
Qed.

(** The two negations cancel: the relative move is [+ vol2move vol], the
    displacement of [_dispense], opposite to the one of [_aspirate]. *)
Lemma air_gap_displacement (p : Pipette) (vol : Q) :
  -1 * (vol2move p vol * -1) == vol2move p vol /\
  -1 * (vol2move p vol * -1) == - (vol2move p vol * -1).
Proof. split; ring. Qed.

(** ** Stir *)

Lemma for_range_returns (cw : Well.t) (body : St M unit) (n : nat) :
  returns_keeping_well cw body ->
  returns_keeping_well cw (for_range n body).
Proof.
  intros Hb. induction n as [|n IH]; intros w Hc; simpl.
  - split; [reflexivity | exact Hc].
  - unfold bind. destruct (Hb w Hc) as [Hr Hc'].
    destruct (body w) as [r w']. simpl in Hr, Hc'. subst r.
    apply IH, Hc'.
Qed.

Lemma stir_turn_returns (cw : Well.t) (z radius : Q) (height : option Q) :
  returns_keeping_well cw
    (x_sp <- current_well_attr Well.x "x" ;;
     y_sp <- current_well_attr Well.y "y" ;;
     let I := -1 * radius in
     let J := 0 in
     if truthy height
     then
       let Z_ := z + match height with Some h => h | None => 0 end in
       send (gcode (G2 x_sp y_sp (Some Z_) I J)) ;;
       send (gcode M400) ;;
       send (move_to_z (Some z))
     else
       send (gcode (G2 x_sp y_sp None I J)) ;;
       send (gcode M400)).
Proof.
  intros w Hc. unfold current_well_attr. st_run.
  destruct (truthy height); st_run; split; first [reflexivity | exact Hc].
Qed.

(** [stir] raises its position error when both the x and the y read from
    the machine differ from the rounded coordinates of the well. *)
Lemma stir_raises_when_both_differ (n_times : Z) (height : option Q)
    (w : world M) (cw : Well.t) :
  has_tip (self w) = true ->
  is_active_tool (base (self w)) = true ->
  current_well (self w) = Some cw ->
  Qeq_bool (pos_X (get_position (machine w))) (py_round (Well.x cw)) = false ->
  Qeq_bool (pos_Y (get_position (machine w))) (py_round2 (Well.y cw)) = false ->
  stir n_times height w = (Err (ToolStateError not_in_well_msg), w).
Proof.
  intros Ht Ha Hc Hx Hy. unfold stir.
  rewrite decorators_pass by assumption.
  unfold current_well_attr. st_run. reflexivity.
Qed.

(** [stir] goes on as soon as one of the two coordinates matches. *)
Lemma stir_proceeds_when_one_matches (n_times : Z) (height : option Q)
    (w : world M) (cw : Well.t) :
  has_tip (self w) = true ->
  is_active_tool (base (self w)) = true ->
  current_well (self w) = Some cw ->
  Qeq_bool (pos_X (get_position (machine w))) (py_round (Well.x cw)) = true \/
  Qeq_bool (pos_Y (get_position (machine w))) (py_round2 (Well.y cw)) = true ->
  fst (stir n_times height w) = Ok tt.
Proof.
  intros Ht Ha Hc Hxy. unfold stir.
  rewrite decorators_pass by assumption.
  unfold bind at 1. rewrite (current_well_attr_some _ _ _ Hc).
  unfold bind at 1. unfold read_position at 1.
  unfold bind at 1. rewrite (current_well_attr_some _ _ _ Hc).
  unfold bind at 1. rewrite (current_well_attr_some _ _ _ Hc).
  cbv zeta.
  assert (Hno : negb (Qeq_bool (pos_X (get_position (machine w))) (py_round (Well.x cw)))
                && negb (Qeq_bool (pos_Y (get_position (machine w))) (py_round2 (Well.y cw)))
                = false).
  { destruct Hxy as [E|E]; rewrite E; simpl; [reflexivity | apply andb_false_r]. }
  unfold bind at 1. rewrite Hno.
  destruct (negb (Qeq_bool (pos_Z (get_position (machine w)))
                           (py_round2 (Well.z cw + (1 # 2))))).
  - unfold send at 1. unfold bind at 1.
    rewrite current_well_attr_some with (cw := cw) by exact Hc.
    apply for_range_returns with (cw := cw); [apply stir_turn_returns | exact Hc].
  - unfold pass, ret. unfold bind at 1.
    rewrite current_well_attr_some with (cw := cw) by exact Hc.
    apply for_range_returns with (cw := cw); [apply stir_turn_returns | exact Hc].
Qed.

(** ** Transfer *)

Lemma record_well_attrs (l : location) (w : world M) :
  fst (record_well l w) = Ok tt /\
  machine (snd (record_well l w)) = machine w /\
  log (snd (record_well l w)) = log w /\
  base (self (snd (record_well l w))) = base (self w) /\
  has_tip (self (snd (record_well l w))) = has_tip (self w) /\
  is_primed (self (snd (record_well l w))) = is_primed (self w).
Proof. destruct l; simpl; repeat split; reflexivity. Qed.

(** [transfer] to one destination, without mixing or blowout, on a primed
    active tool with a tip: the plunger is moved from its position by
    [- vol2move (vol2move vol)] over the source and by
    [+ vol2move (vol2move vol)] over the destination, because the volume
    is converted once in [transfer] and once more in [_aspirate] and
    [_dispense]. *)
Lemma transfer_one_destination (vol : Q) (src dst : location) (s : Z)
    (new_tip : string) (w : world M) (xs ys zs xd yd zd : coord) :
  has_tip (self w) = true ->
  is_active_tool (base (self w)) = true ->
  is_primed (self w) = true ->
  _getxyz (Some src) = Ok (xs, ys, zs) ->
  _getxyz (Some dst) = Ok (xd, yd, zd) ->
  let to_source := [safe_z_movement; move_to_xy xs ys; move_to_z zs] in
  let to_dest := [safe_z_movement; move_to_xy xd yd; move_to_z zd] in
  let v1 := pos_V (get_position (run_cmds to_source (machine w)))
            + vol2move (self w) (vol2move (self w) vol) * -1 in
  let v2 := pos_V (get_position
                     (run_cmds (to_source ++ move_to_v v1 s :: to_dest) (machine w)))
            + vol2move (self w) (vol2move (self w) vol) in
  exists w' : world M,
    transfer _getxyz vol src (DestOne dst) s None None None new_tip w = (Ok tt, w') /\
    log w' = log w ++ to_source ++ move_to_v v1 s :: to_dest ++ [move_to_v v2 s].
Proof.
  intros Ht Ha Hp Hs Hd. cbv zeta.
  destruct src, dst; eexists; unfold transfer;
    rewrite decorators_pass by assumption;
    unfold bind at 1; unfold get_self at 1;
    unfold bind at 1; unfold lift at 1; rewrite Hs;
    unfold bind at 1; rewrite prime_if_unprimed_primed by exact Hp;
    unfold for_each;
    unfold bind at 1; unfold bind at 1; unfold lift at 1; rewrite Hd;
    st_run;
    rewrite _aspirate_primed by (cbn; assumption); st_run;
    rewrite _dispense_tip by (cbn; assumption); st_run;
    (split; [reflexivity|]);
    cbn [log]; rewrite <- !app_assoc; reflexivity.
Qed.

(** ** The primed flag *)

Create HintDb primed.

Lemma kp_ret {A} (a : A) : keeps_primed (ret (M := M) a).
Proof. intros w Hp. exact Hp. Qed.

Lemma kp_pass : keeps_primed (pass (M := M)).
Proof. apply kp_ret. Qed.

Lemma kp_raise {A} (e : exn) : keeps_primed (raise (M := M) (A := A) e).
Proof. intros w Hp. exact Hp. Qed.

Lemma kp_lift {A} (r : result A) : keeps_primed (lift (M := M) r).
Proof. intros w Hp. exact Hp. Qed.

Lemma kp_get_self : keeps_primed (get_self (M := M)).
Proof. intros w Hp. exact Hp. Qed.

Lemma kp_send (c : cmd) : keeps_primed (send c).
Proof. intros w Hp. exact Hp. Qed.

Lemma kp_read_position : keeps_primed read_position.
Proof. intros w Hp. exact Hp. Qed.

Lemma kp_read_deck_safe_z : keeps_primed read_deck_safe_z.
Proof. intros w Hp. exact Hp. Qed.

Lemma kp_set_self (f : Pipette -> Pipette) :
  (forall p, is_primed p = true -> is_primed (f p) = true) ->
  keeps_primed (set_self (M := M) f).
Proof. intros Hf w Hp. simpl. apply Hf, Hp. Qed.

Lemma kp_bind {A B} (m : St M A) (k : A -> St M B) :
  keeps_primed m -> (forall a, keeps_primed (k a)) -> keeps_primed (bind m k).
Proof.
  intros Hm Hk w Hp. unfold bind. specialize (Hm w Hp).
  destruct (m w) as [[a|e] w']; simpl in Hm |- *.
  - apply Hk, Hm.
  - exact Hm.
Qed.

Lemma kp_for_range (n : nat) (body : St M unit) :
  keeps_primed body -> keeps_primed (for_range n body).
Proof.
  intros Hb. induction n as [|n IH]; simpl.
  - apply kp_pass.
  - apply kp_bind; [exact Hb | intros _; exact IH].
Qed.

Lemma kp_for_each {A} (l : list A) (body : A -> St M unit) :
  (forall a, keeps_primed (body a)) -> keeps_primed (for_each l body).
Proof.
  intros Hb. induction l as [|a l IH]; simpl.
  - apply kp_pass.
  - apply kp_bind; [apply Hb | intros _; exact IH].
Qed.

#[local] Hint Resolve kp_ret kp_pass kp_raise kp_lift kp_get_self kp_send
  kp_read_position kp_read_deck_safe_z kp_for_range kp_for_each : primed.

(** Splits a computation along its binds and branches and closes the
    leaves with the lemmas collected in [primed]. *)
Ltac kp :=
  repeat match goal with
         | |- keeps_primed (bind _ _) => apply kp_bind; [|intros]
         | |- keeps_primed (set_self _) =>
             apply kp_set_self; intros ? ?; cbn; solve [assumption | reflexivity]
         | |- keeps_primed (for_range _ _) => apply kp_for_range
         | |- keeps_primed (for_each _ _) => apply kp_for_each; intros
         | |- keeps_primed (match ?x with _ => _ end) => destruct x
         | |- keeps_primed _ => solve [auto with primed]
         end.

Lemma kp_requires_active_tool {A} (func : St M A) :
  keeps_primed func -> keeps_primed (requires_active_tool func).
Proof. intros Hf. unfold requires_active_tool. kp. Qed.

Lemma kp_tip_check (func : St M unit) :
  keeps_primed func -> keeps_primed (tip_check func).
Proof. intros Hf. unfold tip_check. kp. Qed.

Lemma kp_current_well_attr (f : Well.t -> Q) (attr : string) :
  keeps_primed (current_well_attr (M := M) f attr).
Proof. unfold current_well_attr. kp. Qed.

Lemma kp_record_well (l : location) : keeps_primed (record_well (M := M) l).
Proof. unfold record_well. kp. Qed.

#[local] Hint Resolve kp_requires_active_tool kp_tip_check
  kp_current_well_attr kp_record_well : primed.

Lemma kp_prime (s : Z) : keeps_primed (prime s).
Proof. unfold prime. apply kp_requires_active_tool. kp. Qed.
#[local] Hint Resolve kp_prime : primed.

Lemma kp_prime_if_unprimed : keeps_primed prime_if_unprimed.
Proof. unfold prime_if_unprimed. kp. Qed.
#[local] Hint Resolve kp_prime_if_unprimed : primed.

Lemma kp__aspirate (vol : Q) (s : Z) : keeps_primed (_aspirate vol s).
Proof. unfold _aspirate. apply kp_requires_active_tool. kp. Qed.
#[local] Hint Resolve kp__aspirate : primed.

Lemma kp__dispense (vol : Q) (s : Z) : keeps_primed (_dispense vol s).
Proof. unfold _dispense. apply kp_requires_active_tool, kp_tip_check. kp. Qed.
#[local] Hint Resolve kp__dispense : primed.

Lemma kp_aspirate (vol : Q) (loc : location) (s : Z) :
  keeps_primed (aspirate _getxyz vol loc s).
Proof. unfold aspirate. apply kp_requires_active_tool, kp_tip_check. kp. Qed.

Lemma kp_dispense (vol : Q) (loc : location) (s : Z) :
  keeps_primed (dispense _getxyz vol loc s).
Proof. unfold dispense. apply kp_requires_active_tool, kp_tip_check. kp. Qed.

Lemma kp_blowout (s : Z) : keeps_primed (blowout s).
Proof. unfold blowout. apply kp_requires_active_tool, kp_tip_check. kp. Qed.
#[local] Hint Resolve kp_blowout : primed.

Lemma kp_air_gap (vol : Q) : keeps_primed (air_gap vol).
Proof. unfold air_gap. apply kp_requires_active_tool, kp_tip_check. kp. Qed.

Lemma kp_mix (vol : Q) (n s : Z) : keeps_primed (mix vol n s).
Proof. unfold mix. apply kp_requires_active_tool, kp_tip_check. kp. Qed.
#[local] Hint Resolve kp_mix : primed.

Lemma kp_transfer (vol : Q) (src : location) (dst : destination) (s : Z)
    (blowout_ : option location) (mix_before mix_after : option (Q * Z))
    (new_tip : string) :
  keeps_primed (transfer _getxyz vol src dst s blowout_ mix_before mix_after new_tip).
Proof. unfold transfer. apply kp_requires_active_tool, kp_tip_check. kp. Qed.

Lemma kp_stir (n_times : Z) (height : option Q) : keeps_primed (stir n_times height).
Proof. unfold stir. apply kp_requires_active_tool, kp_tip_check. kp. Qed.

Lemma kp_update_z_offset (tip : option bool) : keeps_primed (update_z_offset tip).
Proof. unfold update_z_offset. kp. Qed.
#[local] Hint Resolve kp_update_z_offset : primed.

Lemma kp_tipiterator_next : keeps_primed (tipiterator_next (M := M)).
Proof.
  unfold tipiterator_next. kp.
Qed.
#[local] Hint Resolve kp_tipiterator_next : primed.

Lemma kp_add_tiprack (rack : tiprack_t) : keeps_primed (add_tiprack (M := M) rack).
Proof. unfold add_tiprack. kp. Qed.

Lemma kp__pickup_tip (z : coord) : keeps_primed (_pickup_tip z).
Proof. unfold _pickup_tip. apply kp_requires_active_tool. kp. Qed.
#[local] Hint Resolve kp__pickup_tip : primed.

Lemma kp_pickup_tip (tip_ : option location) :
  keeps_primed (pickup_tip _getxyz tip_).
Proof. unfold pickup_tip. apply kp_requires_active_tool. kp. Qed.

Lemma kp__drop_tip : keeps_primed _drop_tip.
Proof. unfold _drop_tip. apply kp_requires_active_tool. kp. Qed.
#[local] Hint Resolve kp__drop_tip : primed.

Lemma kp_return_tip (loc : option location) :
  keeps_primed (return_tip _getxyz loc).
Proof. unfold return_tip. apply kp_requires_active_tool. kp. Qed.

Lemma kp_increment_tip : keeps_primed (increment_tip (M := M)).
Proof. unfold increment_tip. kp. Qed.

Lemma kp_drop_tip (loc : location) : keeps_primed (drop_tip _getxyz loc).
Proof. unfold drop_tip. apply kp_requires_active_tool, kp_tip_check. kp. Qed.

(** Every call keeps a primed tool primed. *)
Lemma kp_call (o : op) : keeps_primed (call _getxyz o).
Proof.
  destruct o; simpl;
    auto using kp_aspirate, kp_dispense, kp_air_gap, kp_transfer, kp_stir,
      kp_add_tiprack, kp_pickup_tip, kp_return_tip, kp_increment_tip,
      kp_drop_tip with primed.
Qed.

Lemma session_keeps_primed (ops : list op) (w : world M) :
  is_primed (self w) = true ->
  is_primed (self (session _getxyz ops w)) = true.
Proof.
  revert w. induction ops as [|o ops IH]; intros w Hp; simpl.
  - exact Hp.
  - apply IH, kp_call, Hp.
Qed.

(** A [prime] that returns has set the flag. *)
Lemma prime_sets_is_primed (s : Z) (w : world M) :
  fst (prime s w) = Ok tt -> is_primed (self (snd (prime s w))) = true.
Proof.
  unfold prime, requires_active_tool, bind, get_self.
  destruct (is_active_tool (base (self w))); simpl.
  - reflexivity.
  - discriminate.
Qed.

(** C10. Once a [prime] has returned, the flag [is_primed] is true after
    every later sequence of calls on the tool, whether they return or
    raise; there the block that primes an unprimed tool, in [_aspirate]
    and before the loop of [transfer], does nothing, and [_aspirate] on
    the active tool is the single plunger move away from the current
    position. *)
Theorem is_primed_never_reset_C10 (s : Z) (ops : list op) (w : world M) :
  fst (prime s w) = Ok tt ->
  let w' := session _getxyz ops (snd (prime s w)) in
  is_primed (self w') = true /\
  prime_if_unprimed w' = (Ok tt, w') /\
  (forall (vol : Q) (s' : Z),
      is_active_tool (base (self w')) = true ->
      _aspirate vol s' w'
      = send (move_to_v (pos_V (get_position (machine w'))
                         + vol2move (self w') vol * -1) s') w').
Proof.
  intros Hok w'.
  assert (Hp : is_primed (self w') = true)
    by (apply session_keeps_primed, prime_sets_is_primed, Hok).
  split; [exact Hp|]. split.
  - apply prime_if_unprimed_primed, Hp.
  - intros vol s' Ha. apply _aspirate_primed; assumption.
Qed.

End PipetteFacts.

(** * The properties on the sample data *)

Local Open Scope st_scope.

(** C1 as stated fails: the tool carries a tip, and [pickup_tip] has sent
    the safe-z retract and the travel to the tip before it raises. *)
Lemma pickup_tip_moves_before_raising :
  has_tip (self world_tipped) = true /\
  fst (pickup_tip getxyz_ref None world_tipped)
  = Err (ToolStateError tip_attached_msg) /\
  log (snd (pickup_tip getxyz_ref None world_tipped))
  = [safe_z_movement; move_to_xy (Some 10) (Some 100)] /\
  log (snd (pickup_tip getxyz_ref None world_tipped)) <> log world_tipped.
Proof.
  split; [reflexivity|]. split; [reflexivity|]. split; [reflexivity|].
  discriminate.
Qed.

Lemma pickup_tip_with_tip_C1_witness :
  has_tip (self world_tipped) = true /\
  is_active_tool (base (self world_tipped)) = true /\
  pickup_tip getxyz_ref None world_tipped
  = (Err (ToolStateError tip_attached_msg),
     mk_world tipped
              (exec (move_to_xy (Some 10) (Some 100))
                    (exec safe_z_movement axes0))
              [safe_z_movement; move_to_xy (Some 10) (Some 100)]).
Proof.
  split; [reflexivity|]. split; [reflexivity|].
  apply (@pickup_tip_with_tip_C1 axes _ getxyz_ref None world_tipped
           (Some 10) (Some 100) (Some 40)); reflexivity.
Defined.

(** C3 as stated fails: a new pipette that is not the active tool has no
    tip, and [aspirate] on it raises the not-active error, not the no-tip
    [ToolStateError]. *)
Lemma parked_tool_is_not_told_about_the_tip :
  has_tip (self world_parked) = false /\
  call getxyz_ref (call_aspirate 50 (LWell well_A1) 2000) world_parked
  = (Err ToolNotActive, world_parked) /\
  fst (call getxyz_ref (call_aspirate 50 (LWell well_A1) 2000) world_parked)
  <> Err (ToolStateError no_tip_msg).
Proof.
  split; [reflexivity|]. split; [reflexivity|]. discriminate.
Qed.

Lemma tip_required_without_tip_C3_witness :
  tip_required (call_aspirate 50 (LWell well_A1) 2000) = true /\
  has_tip (self world0) = false /\
  is_active_tool (base (self world0)) = true /\
  call getxyz_ref (call_aspirate 50 (LWell well_A1) 2000) world0
  = (Err (ToolStateError no_tip_msg), world0).
Proof.
  split; [reflexivity|]. split; [reflexivity|]. split; [reflexivity|].
  apply (proj2 (@tip_required_without_tip_C3 axes _ getxyz_ref)
           (call_aspirate 50 (LWell well_A1) 2000) world0); reflexivity.
Defined.

(** C5 as stated fails: with a tip and no current well, [blowout] and
    [air_gap] do not raise a [ToolStateError]. *)
Lemma no_current_well_is_not_a_ToolStateError :
  has_tip (self world_tipped) = true /\
  current_well (self world_tipped) = None /\
  ~ (exists msg, fst (blowout 3000 world_tipped) = Err (ToolStateError msg)) /\
  ~ (exists msg, fst (air_gap 10 world_tipped) = Err (ToolStateError msg)).
Proof.
  split; [reflexivity|]. split; [reflexivity|].
  repeat split; intros [msg Hm]; discriminate Hm.
Qed.

Lemma no_current_well_C5_witness :
  has_tip (self world_tipped) = true /\
  is_active_tool (base (self world_tipped)) = true /\
  current_well (self world_tipped) = None /\
  blowout 3000 world_tipped = (Err (AttributeError "top_"), world_tipped) /\
  air_gap 10 world_tipped = (Err (AttributeError "top_"), world_tipped).
Proof.
  split; [reflexivity|]. split; [reflexivity|]. split; [reflexivity|].
  apply (@no_current_well_C5 axes _ world_tipped 3000%Z 10); reflexivity.
Defined.

Lemma dispense_travel_z_C7_witness :
  has_tip (self world_tipped) = true /\
  is_active_tool (base (self world_tipped)) = true /\
  getxyz_ref (Some (LWell well_A1)) = Ok (Some 50, Some 20, Some 5) /\
  5 == Well.z well_A1 /\
  dispense_z (LWell well_A1) (Some 5) = Some (5 + 10) /\
  fst (dispense getxyz_ref 50 (LWell well_A1) 2000 world_tipped) = Ok tt.
Proof.
  split; [reflexivity|]. split; [reflexivity|]. split; [reflexivity|].
  split; [reflexivity|].
  pose proof (@dispense_travel_z_C7 axes _ getxyz_ref 50 (LWell well_A1) 2000%Z
                world_tipped (Some 50) (Some 20) (Some 5)
                eq_refl eq_refl eq_refl) as [[Hok _] [Hplus _]].
  split; [|exact Hok].
  apply (Hplus well_A1 5 eq_refl eq_refl). reflexivity.
Defined.

Lemma is_primed_never_reset_C10_witness :
  fst (prime 2500 world0) = Ok tt /\
  is_primed (self (session getxyz_ref
                     [call_add_tiprack (RackOne rack);
                      call_pickup_tip None;
                      call_aspirate 50 (LWell well_A1) 2000;
                      call_dispense 50 (LWell well_A2) 2000;
                      call_blowout 3000;
                      call_drop_tip (LTuple (Some 1) (Some 2) None);
                      call_stir 1 None]
                     (snd (prime 2500 world0)))) = true.
Proof.
  split; [reflexivity|].
  apply (@is_primed_never_reset_C10 axes _ getxyz_ref 2500%Z _ world0).
  reflexivity.
Defined.

(** C2. A transfer of 100 uL from A1 to A2 with the factor 0.1 moves the
    plunger from 48 to 47 and back to 48, a stroke of 1 mm, where
    [aspirate 100] followed by [dispense 100] moves it from 48 to 38 and
    back, the stroke of 10 mm that [vol2move 100] gives. *)
Theorem transfer_converts_volume_twice_C2 :
  vol2move tipped 100 == 10 /\
  Forall2 Qeq
    (plunger_targets
       (log (snd (transfer getxyz_ref 100 (LWell well_A1) (DestOne (LWell well_A2))
                           2000 None None None "always" world_tipped))))
    [48 - 1; 48] /\
  Forall2 Qeq
    (plunger_targets
       (log (snd ((aspirate getxyz_ref 100 (LWell well_A1) 2000 ;;
                   dispense getxyz_ref 100 (LWell well_A2) 2000) world_tipped))))
    [48 - 10; 48].
Proof.
  split; [reflexivity|].
  split; vm_compute; repeat constructor.
Qed.

(** C4. [air_gap 10] over A1 (top at 15) travels to z = 35 and then moves
    the plunger by +1 mm, forward as a dispense does; [_aspirate 10] from
    the same state moves it by -1 mm. *)
Theorem air_gap_pushes_plunger_C4 :
  fst (air_gap 10 world_over_A1) = Ok tt /\
  (exists d : Q,
      log (snd (air_gap 10 world_over_A1))
      = [move_to_z (Some (15 + 20)); move None (Some d)] /\
      d == 1 /\ d == vol2move tipped 10) /\
  (exists v : Q,
      log (snd (_aspirate 10 2000 world_over_A1)) = [move_to_v v 2000] /\
      v - pos_V (get_position (machine world_over_A1)) == -1).
Proof.
  split; [reflexivity|].
  split; eexists; (split; [reflexivity|]).
  - split; reflexivity.
  - reflexivity.
Qed.

(** C6. With the machine at x = 0 and the current well at x = 50 (y
    agrees), and with the machine at y = 0 and the well at y = 20 (x
    agrees), [stir] does not raise: it lowers the tip and sends the arc. *)
Theorem stir_accepts_one_mismatch_C6 :
  (Qeq_bool (pos_X (get_position (machine world_off_x)))
            (py_round2 (Well.x well_A1)) = false /\
   fst (stir 1 None world_off_x) = Ok tt /\
   exists i : Q,
     log (snd (stir 1 None world_off_x))
     = [move_to_z (Some (11 # 2)); gcode (G2 50 20 None i 0); gcode M400]) /\
  (Qeq_bool (pos_Y (get_position (machine world_off_y)))
            (py_round2 (Well.y well_A1)) = false /\
   fst (stir 1 None world_off_y) = Ok tt /\
   exists i : Q,
     log (snd (stir 1 None world_off_y))
     = [move_to_z (Some (11 # 2)); gcode (G2 50 20 None i 0); gcode M400]).
Proof.
  split; (split; [reflexivity|]); (split; [reflexivity|]); eexists; reflexivity.
Qed.

(** * Further properties of the class *)

(** ** Tip iterator: advancing and retreating *)

Lemma py_getitem_middle {A} (l1 l2 : list A) (a : A) :
  py_getitem (l1 ++ a :: l2) (Z.of_nat (List.length l1)) = Some a.
Proof.
  unfold py_getitem. rewrite length_app. simpl List.length.
  replace ((0 <=? Z.of_nat (List.length l1))
           && (Z.of_nat (List.length l1)
               <? Z.of_nat (List.length l1 + S (List.length l2))))%Z with true
    by (symmetry; apply andb_true_intro; split;
        [apply Z.leb_le | apply Z.ltb_lt]; lia).
  rewrite Nat2Z.id. rewrite nth_error_app2 by lia.
  rewrite Nat.sub_diag. reflexivity.
Qed.

Lemma nexts_from (l1 l2 : list Well.t) :
  nexts (List.length l2) (pipette_iterator.mk (l1 ++ l2) (Z.of_nat (List.length l1)))
  = (map Ok l2,
     pipette_iterator.mk (l1 ++ l2) (Z.of_nat (List.length (l1 ++ l2)))).
Proof.
  revert l1. induction l2 as [|a l2 IH]; intros l1.
  - simpl. rewrite app_nil_r. reflexivity.
  - simpl nexts. unfold pipette_iterator.next.
    cbn [pipette_iterator.tiprack pipette_iterator.index].
    rewrite py_getitem_middle.
    specialize (IH (l1 ++ [a])).
    rewrite <- app_assoc in IH. simpl in IH.
    replace (Z.of_nat (List.length l1) + 1)%Z
      with (Z.of_nat (List.length (l1 ++ [a])))
      by (rewrite length_app; simpl; lia).
    rewrite IH. reflexivity.
Qed.

(** X1. A new iterator over a rack hands out the rack's tips in order, one
    per call of [next], for as many calls as the rack has tips; every call
    after that raises [StopIteration] and leaves the cursor at the length
    of the rack. *)
Theorem next_hands_out_the_rack_in_order (l : list Well.t) :
  nexts (List.length l) (pipette_iterator.init l)
  = (map Ok l, pipette_iterator.mk l (Z.of_nat (List.length l))) /\
  pipette_iterator.next (pipette_iterator.mk l (Z.of_nat (List.length l)))
  = (Err StopIteration, pipette_iterator.mk l (Z.of_nat (List.length l))).
Proof.
  split.
  - exact (nexts_from [] l).
  - apply next_at_end. reflexivity.
Qed.

(** X2. With the cursor at 0 or above, [prev] undoes a [next] that
    returned: it returns the tip [next] has just handed out and puts the
    cursor back. *)
Theorem prev_undoes_next (it it' : pipette_iterator.t) (r : Well.t) :
  (0 <= pipette_iterator.index it)%Z ->
  pipette_iterator.next it = (Ok r, it') ->
  pipette_iterator.prev it' = (Ok r, it).
Proof.
  intros H0. unfold pipette_iterator.next.
  destruct (py_getitem (pipette_iterator.tiprack it) (pipette_iterator.index it))
    as [a|] eqn:E; [|discriminate].
  intros Heq. inversion Heq; subst a it'; clear Heq.
  unfold pipette_iterator.prev.
  cbn [pipette_iterator.tiprack pipette_iterator.index].
  rewrite Z.add_simpl_r.
  replace (pipette_iterator.index it <? 0)%Z with false
    by (symmetry; apply Z.ltb_ge; exact H0).
  rewrite E. destruct it; reflexivity.
Qed.

Lemma prev_undoes_next_witness :
  (0 <= pipette_iterator.index (pipette_iterator.init [tip_1; tip_2; tip_3]))%Z /\
  pipette_iterator.next (pipette_iterator.init [tip_1; tip_2; tip_3])
  = (Ok tip_1, pipette_iterator.mk [tip_1; tip_2; tip_3] 1) /\
  pipette_iterator.prev (pipette_iterator.mk [tip_1; tip_2; tip_3] 1)
  = (Ok tip_1, pipette_iterator.init [tip_1; tip_2; tip_3]).
Proof.
  split; [simpl; lia|]. split; [reflexivity|].
  apply (@prev_undoes_next (pipette_iterator.init [tip_1; tip_2; tip_3])
           (pipette_iterator.mk [tip_1; tip_2; tip_3] 1) tip_1);
    [simpl; lia | reflexivity].
Defined.

(** ** Which attributes a call can change *)

Section PipetteFrames.

Context {M : Type} `{Machine M}.
Variable _getxyz : option location -> result (coord * coord * coord).

Local Open Scope st_scope.

Lemma keeps_ret {A B} (f : Pipette -> B) (a : A) : keeps f (ret (M := M) a).
Proof. intros w. reflexivity. Qed.

Lemma keeps_pass {B} (f : Pipette -> B) : keeps f (pass (M := M)).
Proof. intros w. reflexivity. Qed.

Lemma keeps_raise {A B} (f : Pipette -> B) (e : exn) :
  keeps f (raise (M := M) (A := A) e).
Proof. intros w. reflexivity. Qed.

Lemma keeps_lift {A B} (f : Pipette -> B) (r : result A) :
  keeps f (lift (M := M) r).
Proof. intros w. reflexivity. Qed.

Lemma keeps_get_self {B} (f : Pipette -> B) : keeps f (get_self (M := M)).
Proof. intros w. reflexivity. Qed.

Lemma keeps_send {B} (f : Pipette -> B) (c : cmd) : keeps f (send c).
Proof. intros w. reflexivity. Qed.

Lemma keeps_read_position {B} (f : Pipette -> B) : keeps f read_position.
Proof. intros w. reflexivity. Qed.

Lemma keeps_read_deck_safe_z {B} (f : Pipette -> B) : keeps f read_deck_safe_z.
Proof. intros w. reflexivity. Qed.

Lemma keeps_set_self {B} (f : Pipette -> B) (g : Pipette -> Pipette) :
  (forall p, f (g p) = f p) -> keeps f (set_self (M := M) g).
Proof. intros Hg w. simpl. apply Hg. Qed.

Lemma keeps_bind {A B C} (f : Pipette -> C) (m : St M A) (k : A -> St M B) :
  keeps f m -> (forall a, keeps f (k a)) -> keeps f (bind m k).
Proof.
  intros Hm Hk w. unfold bind. specialize (Hm w).
  destruct (m w) as [[a|e] w']; simpl in Hm |- *.
  - rewrite Hk. exact Hm.
  - exact Hm.
Qed.

Lemma keeps_for_range {B} (f : Pipette -> B) (n : nat) (body : St M unit) :
  keeps f body -> keeps f (for_range n body).
Proof.
  intros Hb. induction n as [|n IH]; simpl.
  - apply keeps_pass.
  - apply keeps_bind; [exact Hb | intros _; exact IH].
Qed.

Lemma keeps_for_each {A B} (f : Pipette -> B) (l : list A) (body : A -> St M unit) :
  (forall a, keeps f (body a)) -> keeps f (for_each l body).
Proof.
  intros Hb. induction l as [|a l IH]; simpl.
  - apply keeps_pass.
  - apply keeps_bind; [apply Hb | intros _; exact IH].
Qed.

Create HintDb frame.
#[local] Hint Resolve keeps_ret keeps_pass keeps_raise keeps_lift keeps_get_self
  keeps_send keeps_read_position keeps_read_deck_safe_z : frame.

Ltac unfold_methods :=
  unfold call, transfer, aspirate, dispense, mix, blowout, air_gap, stir,
    pickup_tip, return_tip, drop_tip, add_tiprack, increment_tip,
    tipiterator_next, update_z_offset, _pickup_tip, _drop_tip,
    _aspirate, _dispense, prime_if_unprimed, prime,
    requires_active_tool, tip_check, current_well_attr, record_well.

(** Follows the structure of a method down to its assignments, which
    must leave [f] alone, and to the machine calls, which do. *)
Ltac frame :=
  unfold_methods;
  repeat match goal with
         | |- keeps _ (bind _ _) => apply keeps_bind; [|intros]
         | |- keeps _ (set_self _) =>
             apply keeps_set_self; intros ?; reflexivity
         | |- keeps _ (for_range _ _) => apply keeps_for_range
         | |- keeps _ (for_each _ _) => apply keeps_for_each; intros
         | |- keeps _ (match ?x with _ => _ end) => destruct x
         | |- keeps _ _ => solve [auto with frame]
         end.

Lemma keeps_base_call (o : op) : keeps base (call _getxyz o).
Proof. destruct o; frame. Qed.

(** X3. No call on a pipette changes what [Tool.__init__] stored in it
    (index, name, brand, model, volumes, plunger positions, conversion
    factor, active flag, tool offset): after any sequence of calls,
    returning or raising, these attributes are those the tool started
    with. *)
Theorem configuration_is_never_modified (ops : list op) (w : world M) :
  base (self (session _getxyz ops w)) = base (self w).
Proof.
  revert w. induction ops as [|o ops IH]; intros w; simpl.
  - reflexivity.
  - rewrite IH. apply keeps_base_call.
Qed.

(** X4. [has_tip] is changed by [pickup_tip], [return_tip] and [drop_tip]
    only: every other call, returning or raising, leaves it as it was. *)
Theorem has_tip_changes_only_by_tip_exchange (o : op) :
  assigns_has_tip o = false -> keeps has_tip (call _getxyz o).
Proof. destruct o; simpl; intros Ho; try discriminate; frame. Qed.

(** X5. The tip inventory (the iterator with its cursor, and the tip held
    ready in [first_available_tip]) is changed by [add_tiprack],
    [increment_tip] and [drop_tip] only: in particular [pickup_tip] and
    [return_tip] never advance it, whether they return or raise. *)
Theorem inventory_changes_only_by_rack_calls (o : op) :
  touches_inventory o = false -> keeps inventory (call _getxyz o).
Proof. destruct o; simpl; intros Ho; try discriminate; frame. Qed.

(** X6. [current_well] is changed by [aspirate], [dispense] and
    [transfer] only: every other call, [mix], [blowout], [air_gap],
    [stir] and the tip exchanges included, leaves it as it was. *)
Theorem current_well_changes_only_by_liquid_moves (o : op) :
  assigns_current_well o = false -> keeps current_well (call _getxyz o).
Proof. destruct o; simpl; intros Ho; try discriminate; frame. Qed.

(** ** Tip exchange: what a call does when it goes through *)

Ltac st_unfold' :=
  unfold bind, get_self, set_self, send, read_position, read_deck_safe_z,
    lift, ret, pass, raise.

Ltac run :=
  repeat (progress (unfold_methods; st_unfold';
                    cbn [self machine log fst snd base has_tip is_primed
                         current_well first_available_tip tipiterator tiprack
                         set_has_tip set_is_primed set_current_well
                         set_first_available_tip set_tipiterator set_tiprack
                         Bool.eqb run_cmds fold_left pickup_target option_map
                         prime_move probe_move tip_offset_of];
                    repeat match goal with
                           | E : ?l = _ |- context [?l] => rewrite E
                           end)).

(** Case analysis on everything a computation branches on. *)
Ltac cases :=
  run;
  repeat (match goal with
          | |- context [match ?x with _ => _ end] =>
              lazymatch x with
              | context [match _ with _ => _ end] => fail
              | _ => destruct x eqn:?
              end
          end; run).

(** X7. [pickup_tip] returns only on a tool that had no tip, and the tool
    then has one: with a tip already attached it raises in every case. *)
Theorem pickup_tip_returns_only_without_tip (tip_ : option location) (w : world M) :
  fst (pickup_tip _getxyz tip_ w) = Ok tt ->
  has_tip (self w) = false /\
  has_tip (self (snd (pickup_tip _getxyz tip_ w))) = true.
Proof.
  destruct (has_tip (self w)) eqn:Ht;
    destruct (is_active_tool (base (self w))) eqn:Ha;
    destruct (_getxyz (pickup_target (self w) tip_)) as [[[x y] z]|e] eqn:Hxyz;
    cases; intros Hok; try discriminate Hok; split; reflexivity.
Qed.

(** X8. [pickup_tip] on an active tool without a tip, with a rack
    attached and a tool offset known: it retracts, travels to the tip,
    probes, shifts the tool's z offset by the tip length less the overlap
    and retracts to 10 above the deck's safe height; [has_tip] becomes
    true and nothing else changes in the tool. *)
Theorem pickup_tip_goes_through (tip_ : option location) (w : world M)
    (x y z : coord) (r : Labware.t) (off : Q) :
  has_tip (self w) = false ->
  is_active_tool (base (self w)) = true ->
  _getxyz (pickup_target (self w) tip_) = Ok (x, y, z) ->
  tiprack (self w) = Some (RackOne r) ->
  tool_offset (base (self w)) = Some off ->
  let approach :=
    [safe_z_movement; move_to_xy x y; probe_move z;
     gcode (G10 (index (base (self w))) (Some (off - tip_offset_of r)))] in
  let retract :=
    move_to_z (Some (deck_safe_z (run_cmds approach (machine w)) + 10)) in
  pickup_tip _getxyz tip_ w
  = (Ok tt,
     mk_world (set_has_tip true (self w))
              (run_cmds (approach ++ [retract]) (machine w))
              (log w ++ approach ++ [retract])).
Proof.
  intros Ht Ha Hxyz Hr Ho. cbv zeta. run.
  rewrite <- !app_assoc. reflexivity.
Qed.

(** X9. [drop_tip] on an active tool with a tip, a rack and a tip left in
    the inventory: it retracts, travels to the location unless both x and
    y are [None], ejects the tip, primes and restores the tool's z offset;
    the tool is left without a tip, primed, and with the next tip of the
    inventory held ready (the cursor one further). *)
Theorem drop_tip_goes_through (loc : location) (w : world M)
    (x y z : coord) (r : Labware.t) (off : Q)
    (it it' : pipette_iterator.t) (t : Well.t) :
  has_tip (self w) = true ->
  is_active_tool (base (self w)) = true ->
  _getxyz (Some loc) = Ok (x, y, z) ->
  tiprack (self w) = Some (RackOne r) ->
  tool_offset (base (self w)) = Some off ->
  tipiterator (self w) = Some it ->
  pipette_iterator.next it = (Ok t, it') ->
  let travel :=
    match x, y with
    | None, None => []
    | _, _ => [move_to_xy x y]
    end in
  let cmds :=
    safe_z_movement :: travel
    ++ [move_to_v (drop_tip_position (base (self w))) 4000;
        prime_move (self w) 2500;
        gcode (G10 (index (base (self w))) (Some off))] in
  drop_tip _getxyz loc w
  = (Ok tt,
     mk_world (set_first_available_tip (Some t)
                 (set_tipiterator (Some it')
                    (set_has_tip false (set_is_primed true (self w)))))
              (run_cmds cmds (machine w))
              (log w ++ cmds)).
Proof.
  intros Ht Ha Hxyz Hr Ho Hi Hn. cbv zeta.
  destruct x, y; run; rewrite <- !app_assoc; reflexivity.
Qed.

(** X10. [drop_tip] when the inventory has no tip left: the tip is
    ejected all the same (the same commands are sent, [has_tip] becomes
    false), and then [StopIteration] is raised; [first_available_tip]
    still holds the tip it held before. *)
Theorem drop_tip_with_inventory_exhausted (loc : location) (w : world M)
    (x y z : coord) (r : Labware.t) (off : Q) (it : pipette_iterator.t) :
  has_tip (self w) = true ->
  is_active_tool (base (self w)) = true ->
  _getxyz (Some loc) = Ok (x, y, z) ->
  tiprack (self w) = Some (RackOne r) ->
  tool_offset (base (self w)) = Some off ->
  tipiterator (self w) = Some it ->
  pipette_iterator.index it
  = Z.of_nat (List.length (pipette_iterator.tiprack it)) ->
  let travel :=
    match x, y with
    | None, None => []
    | _, _ => [move_to_xy x y]
    end in
  let cmds :=
    safe_z_movement :: travel
    ++ [move_to_v (drop_tip_position (base (self w))) 4000;
        prime_move (self w) 2500;
        gcode (G10 (index (base (self w))) (Some off))] in
  drop_tip _getxyz loc w
  = (Err StopIteration,
     mk_world (set_tipiterator (Some it)
                 (set_has_tip false (set_is_primed true (self w))))
              (run_cmds cmds (machine w))
              (log w ++ cmds)).
Proof.
  intros Ht Ha Hxyz Hr Ho Hi Hend. cbv zeta.
  pose proof (next_at_end it Hend) as Hn.
  destruct x, y; run; rewrite <- !app_assoc; reflexivity.
Qed.

(** X11. [return_tip] on an active tool with a tip: it retracts, travels
    to the given location, or to [first_available_tip] when none is
    given, lowers the head by 25, ejects the tip, raises the head by 25,
    primes and restores the z offset; the tool is left without a tip and
    primed. *)
Theorem return_tip_goes_through (loc : option location) (w : world M)
    (x y z : coord) (r : Labware.t) (off : Q) :
  has_tip (self w) = true ->
  is_active_tool (base (self w)) = true ->
  _getxyz (pickup_target (self w) loc) = Ok (x, y, z) ->
  tiprack (self w) = Some (RackOne r) ->
  tool_offset (base (self w)) = Some off ->
  let cmds :=
    [safe_z_movement; move_to_xy x y; move (Some (-25)) None;
     move_to_v (drop_tip_position (base (self w))) 4000;
     move (Some 25) None;
     prime_move (self w) 2500;
     gcode (G10 (index (base (self w))) (Some off))] in
  return_tip _getxyz loc w
  = (Ok tt,
     mk_world (set_has_tip false (set_is_primed true (self w)))
              (run_cmds cmds (machine w))
              (log w ++ cmds)).
Proof.
  intros Ht Ha Hxyz Hr Ho. cbv zeta.
  destruct loc; simpl in Hxyz; run; rewrite <- !app_assoc; reflexivity.
Qed.

(** X12. [return_tip] on an active tool without a tip: the retract, the
    travel and the lowering of the head by 25 are sent, then [_drop_tip]
    raises [ToolConfigurationError]; the head is not raised again and the
    tool's attributes are unchanged. *)
Theorem return_tip_without_tip (loc : option location) (w : world M)
    (x y z : coord) :
  has_tip (self w) = false ->
  is_active_tool (base (self w)) = true ->
  _getxyz (pickup_target (self w) loc) = Ok (x, y, z) ->
  let cmds := [safe_z_movement; move_to_xy x y; move (Some (-25)) None] in
  return_tip _getxyz loc w
  = (Err (ToolConfigurationError no_tip_to_drop_msg),
     mk_world (self w) (run_cmds cmds (machine w)) (log w ++ cmds)).
Proof.
  intros Ht Ha Hxyz. cbv zeta.
  destruct loc; simpl in Hxyz; run; rewrite <- !app_assoc; reflexivity.
Qed.

(** ** Liquid handling: what a call sends *)

Lemma set_is_primed_primed (p : Pipette) :
  is_primed p = true -> set_is_primed true p = p.
Proof. destruct p; simpl; intros ->; reflexivity. Qed.

(** X13. [aspirate] on an active tool with a tip that is not primed yet:
    after the retract and the travel to (x, y) and to z, the plunger is
    first driven to the zero position by [prime], and only then moved by
    [- vol2move vol] from where that left it; the tool ends primed and
    has recorded the well of the location. *)
Theorem aspirate_primes_an_unprimed_tool (vol : Q) (loc : location) (s : Z)
    (w : world M) (x y z : coord) :
  has_tip (self w) = true ->
  is_active_tool (base (self w)) = true ->
  is_primed (self w) = false ->
  _getxyz (Some loc) = Ok (x, y, z) ->
  let travel :=
    [safe_z_movement; move_to_xy x y; move_to_z z; prime_move (self w) 2500] in
  let v := pos_V (get_position (run_cmds travel (machine w)))
           + vol2move (self w) vol * -1 in
  exists w' : world M,
    aspirate _getxyz vol loc s w = (Ok tt, w') /\
    log w' = log w ++ travel ++ [move_to_v v s] /\
    machine w' = run_cmds (travel ++ [move_to_v v s]) (machine w) /\
    is_primed (self w') = true /\
    current_well (self w') = well_of loc (current_well (self w)).
Proof.
  intros Ht Ha Hp Hxyz. cbv zeta.
  destruct loc; eexists; (split; [run; reflexivity|]); cbn;
    rewrite <- !app_assoc; repeat split.
Qed.

(** X14. [blowout] on an active tool with a tip over a well: a travel to 5
    above the well's top, the plunger to the blowout position at the
    given speed, then [prime]; no horizontal travel, and the tool ends
    primed. *)
Theorem blowout_goes_through (s : Z) (w : world M) (cw : Well.t) :
  has_tip (self w) = true ->
  is_active_tool (base (self w)) = true ->
  current_well (self w) = Some cw ->
  let cmds :=
    [move_to_z (Some (Well.top_ cw + 5));
     move_to_v (blowout_position (base (self w))) s;
     prime_move (self w) 2500] in
  blowout s w
  = (Ok tt,
     mk_world (set_is_primed true (self w))
              (run_cmds cmds (machine w)) (log w ++ cmds)).
Proof.
  intros Ht Ha Hc. cbv zeta. run. rewrite <- !app_assoc. reflexivity.
Qed.

Lemma run_cmds_app (l1 l2 : list cmd) (m : M) :
  run_cmds (l1 ++ l2) m = run_cmds l2 (run_cmds l1 m).
Proof. unfold run_cmds. apply fold_left_app. Qed.

Lemma mix_strokes_base (p p' : Pipette) (vol : Q) (s : Z) (n : nat) (m : M) :
  base p = base p' -> mix_strokes p vol s n m = mix_strokes p' vol s n m.
Proof.
  intros Hb. revert m. induction n as [|n IH]; intros m; simpl.
  - reflexivity.
  - unfold vol2move, prime_move. rewrite Hb, IH. reflexivity.
Qed.

(** The loop of [mix]: from a primed active tool, [n] rounds of
    [_aspirate] then [prime] send the strokes of [mix_strokes] and leave
    the tool as it was. *)
Lemma mix_rounds (vol : Q) (s : Z) (n : nat) (w : world M) :
  is_active_tool (base (self w)) = true ->
  is_primed (self w) = true ->
  for_range n (_aspirate vol s ;; prime s) w
  = (Ok tt,
     mk_world (self w)
              (run_cmds (mix_strokes (self w) vol s n (machine w)) (machine w))
              (log w ++ mix_strokes (self w) vol s n (machine w))).
Proof.
  revert w. induction n as [|n IH]; intros w Ha Hp.
  - simpl. rewrite app_nil_r. destruct w; reflexivity.
  - simpl for_range. simpl mix_strokes.
    set (v := pos_V (get_position (machine w)) + vol2move (self w) vol * -1).
    set (w1 := mk_world (self w)
                 (run_cmds (stroke (self w) s v) (machine w))
                 (log w ++ stroke (self w) s v)).
    assert (Hbody : (_aspirate vol s ;; prime s) w = (Ok tt, w1)).
    { subst w1 v. run. rewrite (set_is_primed_primed _ Hp).
      rewrite <- !app_assoc. reflexivity. }
    unfold bind at 1. rewrite Hbody. rewrite (IH w1 Ha Hp).
    subst w1. cbn [self machine log].
    rewrite <- app_assoc. reflexivity.
Qed.

(** X15. [mix] on an active tool with a tip over a well: a travel to 2
    above the well's top, [prime], a travel to the well's z, then as many
    strokes as [n] says (none when [n] is negative); each stroke is the
    plunger move of [_aspirate], at speed [s] to the position the machine
    reports less [vol2move vol], followed by the move of [prime] at speed
    [s]; the tool ends primed whatever it was before. *)
Theorem mix_goes_through (vol : Q) (n s : Z) (w : world M) (cw : Well.t) :
  has_tip (self w) = true ->
  is_active_tool (base (self w)) = true ->
  current_well (self w) = Some cw ->
  let approach :=
    [move_to_z (Some (Well.top_ cw + 2)); prime_move (self w) 2500;
     move_to_z (Some (Well.z cw))] in
  let cmds :=
    approach ++ mix_strokes (self w) vol s (Z.to_nat n)
                            (run_cmds approach (machine w)) in
  mix vol n s w
  = (Ok tt,
     mk_world (set_is_primed true (self w))
              (run_cmds cmds (machine w)) (log w ++ cmds)).
Proof.
  intros Ht Ha Hc. cbv zeta.
  set (approach := [move_to_z (Some (Well.top_ cw + 2)); prime_move (self w) 2500;
                    move_to_z (Some (Well.z cw))]).
  set (w1 := mk_world (set_is_primed true (self w))
               (run_cmds approach (machine w)) (log w ++ approach)).
  pose proof (@mix_rounds vol s (Z.to_nat n) w1 Ha eq_refl) as Hrun.
  unfold mix.
  set (loop := for_range (Z.to_nat n) (_aspirate vol s ;; prime s)) in *.
  run.
  match goal with
  | |- loop ?w0 = _ =>
      replace w0 with w1
        by (subst w1 approach; cbn; rewrite <- !app_assoc; reflexivity)
  end.
  rewrite Hrun. subst w1. cbn [self machine log].
  rewrite (@mix_strokes_base (set_is_primed true (self w)) (self w)) by reflexivity.
  rewrite run_cmds_app, app_assoc. reflexivity.
Qed.

(** ** Transfer over a list of destinations *)

Lemma transfer_loop (vol : Q) (src : location) (dst : destination) (s : Z)
    (blowout_ : option location) (mix_before mix_after : option (Q * Z))
    (new_tip : string) :
  transfer _getxyz vol src dst s blowout_ mix_before mix_after new_tip
  = requires_active_tool (tip_check (
      t <- get_self ;;
      ' (xs, ys, zs) <- lift (_getxyz (Some src)) ;;
      prime_if_unprimed ;;
      for_each (match dst with DestOne l => [l] | DestList l => l end)
        (transfer_step _getxyz (vol2move t vol) src xs ys zs s
                       blowout_ mix_before mix_after))).
Proof. reflexivity. Qed.

Lemma transfer_step_keeps_has_tip vol_ src xs ys zs s b mb ma well :
  keeps has_tip (transfer_step _getxyz vol_ src xs ys zs s b mb ma well).
Proof. unfold transfer_step. frame. Qed.

Lemma transfer_step_keeps_base vol_ src xs ys zs s b mb ma well :
  keeps base (transfer_step _getxyz vol_ src xs ys zs s b mb ma well).
Proof. unfold transfer_step. frame. Qed.

Lemma transfer_step_keeps_primed vol_ src xs ys zs s b mb ma well :
  keeps_primed (transfer_step _getxyz vol_ src xs ys zs s b mb ma well).
Proof.
  unfold transfer_step.
  repeat match goal with
         | |- keeps_primed (bind _ _) => apply kp_bind; [|intros]
         | |- keeps_primed (match ?x with _ => _ end) => destruct x
         end;
    auto using kp_lift, kp_send, kp_record_well, kp__aspirate, kp__dispense,
      kp_mix, kp_blowout, kp_pass.
Qed.

Lemma for_each_one {A} (a : A) (body : A -> St M unit) (w : world M) :
  for_each [a] body w = body a w.
Proof.
  simpl. unfold bind. destruct (body a w) as [[[]|e] w']; reflexivity.
Qed.

(** [transfer] up to its loop. *)
Lemma transfer_enters_loop (vol : Q) (src : location) (dst : destination) (s : Z)
    (blowout_ : option location) (mix_before mix_after : option (Q * Z))
    (new_tip : string) (w w1 : world M) (xs ys zs : coord) (r : result unit) :
  is_active_tool (base (self w)) = true ->
  has_tip (self w) = true ->
  _getxyz (Some src) = Ok (xs, ys, zs) ->
  prime_if_unprimed w = (r, w1) ->
  transfer _getxyz vol src dst s blowout_ mix_before mix_after new_tip w
  = match r with
    | Ok _ =>
        for_each (match dst with DestOne l => [l] | DestList l => l end)
          (transfer_step _getxyz (vol2move (self w) vol) src xs ys zs s
                         blowout_ mix_before mix_after) w1
    | Err e => (Err e, w1)
    end.
Proof.
  intros Ha Ht Hs Hp. rewrite transfer_loop.
  rewrite decorators_pass by assumption.
  unfold bind at 1. unfold get_self at 1.
  unfold bind at 1. unfold lift at 1. rewrite Hs.
  unfold bind at 1. rewrite Hp. destruct r; reflexivity.
Qed.

(** [transfer] stopped before its loop: the exception and the world do
    not depend on the destinations. *)
Lemma transfer_stopped (vol : Q) (src : location) (dst : destination) (s : Z)
    (blowout_ : option location) (mix_before mix_after : option (Q * Z))
    (new_tip : string) (w : world M) :
  is_active_tool (base (self w)) = false \/
  has_tip (self w) = false \/
  (exists e, _getxyz (Some src) = Err e) ->
  exists e : exn,
    forall dst' : destination,
      transfer _getxyz vol src dst' s blowout_ mix_before mix_after new_tip w
      = (Err e, w).
Proof.
  intros Hcase.
  destruct (is_active_tool (base (self w))) eqn:Ha.
  - destruct (has_tip (self w)) eqn:Ht.
    + destruct Hcase as [Hc|[Hc|[e He]]]; try discriminate.
      exists e. intros dst'. rewrite transfer_loop.
      rewrite decorators_pass by assumption.
      unfold bind at 1. unfold get_self at 1.
      unfold bind at 1. unfold lift at 1. rewrite He. reflexivity.
    + exists (ToolStateError no_tip_msg). intros dst'. rewrite transfer_loop.
      rewrite requires_active_tool_active by exact Ha.
      apply tip_check_no_tip, Ht.
  - exists ToolNotActive. intros dst'. rewrite transfer_loop.
    apply requires_active_tool_inactive, Ha.
Qed.

(** X16. [transfer] to a list of destinations is the [transfer] to its
    first destination followed by the [transfer] to the rest of the list:
    the destinations are served in list order, each with its own visit to
    the source, and an exception at one destination ends the whole call
    there. *)
Theorem transfer_list_is_a_sequence (vol : Q) (src d : location)
    (ds : list location) (s : Z) (blowout_ : option location)
    (mix_before mix_after : option (Q * Z)) (new_tip : string) (w : world M) :
  transfer _getxyz vol src (DestList (d :: ds)) s blowout_ mix_before mix_after
           new_tip w
  = (transfer _getxyz vol src (DestOne d) s blowout_ mix_before mix_after new_tip ;;
     transfer _getxyz vol src (DestList ds) s blowout_ mix_before mix_after new_tip)
      w.
Proof.
  unfold bind.
  destruct (is_active_tool (base (self w))) eqn:Ha;
    [|destruct (@transfer_stopped vol src (DestOne d) s blowout_ mix_before
                  mix_after new_tip w (or_introl Ha)) as [e He];
      rewrite !He; reflexivity].
  destruct (has_tip (self w)) eqn:Ht;
    [|destruct (@transfer_stopped vol src (DestOne d) s blowout_ mix_before
                  mix_after new_tip w (or_intror (or_introl Ht))) as [e He];
      rewrite !He; reflexivity].
  destruct (_getxyz (Some src)) as [[[xs ys] zs]|e0] eqn:Hs;
    [|destruct (@transfer_stopped vol src (DestOne d) s blowout_ mix_before
                  mix_after new_tip w
                  (or_intror (or_intror (ex_intro _ e0 Hs)))) as [e He];
      rewrite !He; reflexivity].
  destruct (prime_if_unprimed w) as [r w1] eqn:Hp1.
  rewrite !(fun dst => @transfer_enters_loop vol src dst s blowout_ mix_before
                         mix_after new_tip w w1 xs ys zs r Ha Ht Hs Hp1).
  destruct r as [[]|e]; [|reflexivity].
  assert (Hp : is_primed (self w1) = true).
  { revert Hp1. unfold prime_if_unprimed. run.
    destruct (is_primed (self w)) eqn:E; run; intros Heq;
      inversion Heq; subst w1; cbn; auto. }
  assert (Hb : base (self w1) = base (self w)).
  { change w1 with (snd (Ok tt, w1)). rewrite <- Hp1.
    assert (K : keeps base prime_if_unprimed) by frame. apply K. }
  assert (Ht1 : has_tip (self w1) = true).
  { rewrite <- Ht. change w1 with (snd (Ok tt, w1)). rewrite <- Hp1.
    assert (K : keeps has_tip prime_if_unprimed) by frame. apply K. }
  rewrite for_each_one. simpl for_each. unfold bind at 1.
  set (step := transfer_step _getxyz (vol2move (self w) vol) src xs ys zs s
                             blowout_ mix_before mix_after).
  pose proof (@transfer_step_keeps_base (vol2move (self w) vol) src xs ys zs s
                blowout_ mix_before mix_after d w1) as Hb2.
  pose proof (@transfer_step_keeps_has_tip (vol2move (self w) vol) src xs ys zs s
                blowout_ mix_before mix_after d w1) as Ht2.
  pose proof (@transfer_step_keeps_primed (vol2move (self w) vol) src xs ys zs s
                blowout_ mix_before mix_after d w1 Hp) as Hp2.
  fold step in Hb2, Ht2, Hp2.
  destruct (step d w1) as [[[]|e] w2]; [|reflexivity].
  cbn [snd] in Hb2, Ht2, Hp2.
  rewrite (@transfer_enters_loop vol src (DestList ds) s blowout_ mix_before
             mix_after new_tip w2 w2 xs ys zs (Ok tt));
    [| congruence | congruence | exact Hs
     | apply prime_if_unprimed_primed; exact Hp2].
  unfold vol2move. rewrite Hb2, Hb. reflexivity.
Qed.

(** ** Stir *)

Lemma for_range_sends (cw : Well.t) (cmds : list cmd) (body : St M unit) :
  (forall w : world M,
      current_well (self w) = Some cw ->
      body w = (Ok tt, mk_world (self w) (run_cmds cmds (machine w))
                                (log w ++ cmds))) ->
  forall (n : nat) (w : world M),
    current_well (self w) = Some cw ->
    for_range n body w
    = (Ok tt,
       mk_world (self w)
                (run_cmds (List.concat (repeat cmds n)) (machine w))
                (log w ++ List.concat (repeat cmds n))).
Proof.
  intros Hb. induction n as [|n IH]; intros w Hc.
  - simpl. rewrite app_nil_r. destruct w; reflexivity.
  - simpl for_range. unfold bind at 1. rewrite (Hb w Hc).
    rewrite IH by exact Hc. cbn [self machine log repeat List.concat].
    rewrite run_cmds_app, app_assoc. reflexivity.
Qed.

(** X17. [stir] on an active tool with a tip whose position check passes
    (x or y read from the machine equals the rounded coordinate of the
    current well): the tip is taken to the well's z plus 0.5 unless the
    machine's z already equals it to two decimals, then [n_times] turns
    are sent (none when [n_times] is negative), each an arc G2 around the
    well with centre offset I = -(diameter/2 - diameter/6), J = 0,
    followed by the wait M400; the tool's attributes are unchanged. *)
Theorem stir_goes_through (n_times : Z) (height : option Q) (w : world M)
    (cw : Well.t) :
  has_tip (self w) = true ->
  is_active_tool (base (self w)) = true ->
  current_well (self w) = Some cw ->
  Qeq_bool (pos_X (get_position (machine w))) (py_round (Well.x cw)) = true \/
  Qeq_bool (pos_Y (get_position (machine w))) (py_round2 (Well.y cw)) = true ->
  let lower :=
    if Qeq_bool (pos_Z (get_position (machine w)))
                (py_round2 (Well.z cw + (1 # 2)))
    then []
    else [move_to_z (Some (Well.z cw + (1 # 2)))] in
  let cmds := lower ++ List.concat (repeat (stir_turn cw height) (Z.to_nat n_times)) in
  stir n_times height w
  = (Ok tt, mk_world (self w) (run_cmds cmds (machine w)) (log w ++ cmds)).
Proof.
  intros Ht Ha Hc Hxy. cbv zeta.
  assert (Hno : negb (Qeq_bool (pos_X (get_position (machine w))) (py_round (Well.x cw)))
                && negb (Qeq_bool (pos_Y (get_position (machine w))) (py_round2 (Well.y cw)))
                = false).
  { destruct Hxy as [E|E]; rewrite E; simpl; [reflexivity | apply andb_false_r]. }
  assert (Hturn : forall w0 : world M,
             current_well (self w0) = Some cw ->
             (x_sp <- current_well_attr Well.x "x" ;;
              y_sp <- current_well_attr Well.y "y" ;;
              let I := -1 * (Well.diameter cw / 2 - Well.diameter cw / 6) in
              let J := 0 in
              if truthy height
              then
                let Z_ := Well.z cw + (1 # 2)
                          + match height with Some h => h | None => 0 end in
                send (gcode (G2 x_sp y_sp (Some Z_) I J)) ;;
                send (gcode M400) ;;
                send (move_to_z (Some (Well.z cw + (1 # 2))))
              else
                send (gcode (G2 x_sp y_sp None I J)) ;;
                send (gcode M400)) w0
             = (Ok tt, mk_world (self w0)
                                (run_cmds (stir_turn cw height) (machine w0))
                                (log w0 ++ stir_turn cw height))).
  { intros w0 Hc0. unfold stir_turn, current_well_attr. cbv zeta.
    destruct (truthy height); run; rewrite <- !app_assoc; reflexivity. }
  unfold stir. rewrite decorators_pass by assumption.
  unfold bind at 1. rewrite (current_well_attr_some _ _ _ Hc).
  unfold bind at 1. unfold read_position at 1.
  unfold bind at 1. rewrite (current_well_attr_some _ _ _ Hc).
  unfold bind at 1. rewrite (current_well_attr_some _ _ _ Hc).
  cbv zeta. unfold bind at 1. rewrite Hno.
  destruct (Qeq_bool (pos_Z (get_position (machine w)))
                     (py_round2 (Well.z cw + (1 # 2)))); cbn [negb].
  - unfold pass, ret. unfold bind at 1.
    rewrite current_well_attr_some with (cw := cw) by exact Hc.
    rewrite (@for_range_sends cw _ _ Hturn) by exact Hc.
    reflexivity.
  - unfold send at 1. unfold bind at 1.
    rewrite current_well_attr_some with (cw := cw) by exact Hc.
    rewrite (@for_range_sends cw _ _ Hturn) by exact Hc.
    cbn [self machine log]. rewrite run_cmds_app, <- app_assoc. reflexivity.
Qed.

(** X18. A [height] of 0 counts as no height: [stir] with height 0 does
    exactly what [stir] without a height does (flat arcs, no return
    move). *)
Theorem stir_height_zero_is_no_height (n_times : Z) (h : Q) (w : world M) :
  h == 0 -> stir n_times (Some h) w = stir n_times None w.
Proof.
  intros Hh. unfold stir.
  assert (E : truthy (Some h) = false).
  { simpl. apply Qeq_bool_iff in Hh. rewrite Hh. reflexivity. }
  rewrite E. reflexivity.
Qed.

(** ** Attaching a rack *)

(** X19. [add_tiprack] with one rack that has at least one tip: the rack
    and an iterator over it are stored, the first tip of the rack is held
    ready in [first_available_tip] with the cursor at 1, and nothing is
    sent to the machine. *)
Theorem add_tiprack_holds_the_first_tip (r : Labware.t) (t : Well.t)
    (ts : list Well.t) (w : world M) :
  Labware.wells r = t :: ts ->
  exists w' : world M,
    add_tiprack (RackOne r) w = (Ok tt, w') /\
    first_available_tip (self w') = Some t /\
    tipiterator (self w') = Some (pipette_iterator.mk (t :: ts) 1) /\
    tiprack (self w') = Some (RackOne r) /\
    has_tip (self w') = has_tip (self w) /\
    machine w' = machine w /\ log w' = log w.
Proof.
  intros Hw. eexists. split.
  - run. unfold pipette_iterator.next, pipette_iterator.init. run.
    cbn [pipette_iterator.tiprack pipette_iterator.index py_getitem].
    reflexivity.
  - cbn. repeat split.
Qed.

(** X20. [add_tiprack] fails in two ways. With a rack that has no tip it
    stores the rack and the iterator and then raises [StopIteration],
    [first_available_tip] keeping its old value. With a list of racks it
    raises [TypeError] at once and stores nothing. *)
Theorem add_tiprack_failures (w : world M) :
  (forall r : Labware.t,
      Labware.wells r = [] ->
      add_tiprack (RackOne r) w
      = (Err StopIteration,
         mk_world (set_tipiterator (Some (pipette_iterator.init []))
                     (set_tiprack (Some (RackOne r))
                        (set_tipiterator (Some (pipette_iterator.init []))
                           (self w))))
                  (machine w) (log w))) /\
  (forall racks : list Labware.t,
      add_tiprack (RackList racks) w
      = (Err (TypeError "'int' object is not iterable"), w)).
Proof.
  split.
  - intros r Hw. run. reflexivity.
  - intros racks. reflexivity.
Qed.

(** X21. [return_tip] returns only on a tool that had a tip, and the tool
    then has none. *)
Theorem return_tip_returns_only_with_tip (loc : option location) (w : world M) :
  fst (return_tip _getxyz loc w) = Ok tt ->
  has_tip (self w) = true /\
  has_tip (self (snd (return_tip _getxyz loc w))) = false.
Proof.
  destruct (has_tip (self w)) eqn:Ht;
    destruct (is_active_tool (base (self w))) eqn:Ha;
    destruct (_getxyz (pickup_target (self w) loc)) as [[[x y] z]|e] eqn:Hxyz;
    destruct loc; simpl in Hxyz;
    cases; intros Hok; try discriminate Hok; split; reflexivity.
Qed.

End PipetteFrames.

(** * The further properties on the sample data *)

Lemma has_tip_changes_only_by_tip_exchange_witness :
  assigns_has_tip (call_mix 10 2 5000) = false /\
  has_tip (self (snd (call getxyz_ref (call_mix 10 2 5000) world_over_A1)))
  = has_tip (self world_over_A1).
Proof.
  split; [reflexivity|].
  exact (@has_tip_changes_only_by_tip_exchange axes _ getxyz_ref
           (call_mix 10 2 5000) eq_refl world_over_A1).
Defined.

Lemma inventory_changes_only_by_rack_calls_witness :
  touches_inventory (call_return_tip None) = false /\
  inventory (self (snd (call getxyz_ref (call_return_tip None) world_tipped)))
  = inventory (self world_tipped).
Proof.
  split; [reflexivity|].
  exact (@inventory_changes_only_by_rack_calls axes _ getxyz_ref
           (call_return_tip None) eq_refl world_tipped).
Defined.

Lemma current_well_changes_only_by_liquid_moves_witness :
  assigns_current_well (call_blowout 3000) = false /\
  current_well (self (snd (call getxyz_ref (call_blowout 3000) world_over_A1)))
  = current_well (self world_over_A1).
Proof.
  split; [reflexivity|].
  exact (@current_well_changes_only_by_liquid_moves axes _ getxyz_ref
           (call_blowout 3000) eq_refl world_over_A1).
Defined.

Lemma pickup_tip_returns_only_without_tip_witness :
  fst (pickup_tip getxyz_ref None world_racked) = Ok tt /\
  has_tip (self world_racked) = false /\
  has_tip (self (snd (pickup_tip getxyz_ref None world_racked))) = true.
Proof.
  split; [reflexivity|].
  exact (@pickup_tip_returns_only_without_tip axes _ getxyz_ref None
           world_racked eq_refl).
Defined.

Lemma pickup_tip_goes_through_witness :
  has_tip (self world_racked) = false /\
  is_active_tool (base (self world_racked)) = true /\
  getxyz_ref (pickup_target (self world_racked) None)
  = Ok (Some 10, Some 100, Some 40) /\
  fst (pickup_tip getxyz_ref None world_racked) = Ok tt /\
  List.length (log (snd (pickup_tip getxyz_ref None world_racked))) = 5%nat.
Proof.
  split; [reflexivity|]. split; [reflexivity|]. split; [reflexivity|].
  rewrite (@pickup_tip_goes_through axes _ getxyz_ref None world_racked
             (Some 10) (Some 100) (Some 40) rack 0
             eq_refl eq_refl eq_refl eq_refl eq_refl).
  split; reflexivity.
Defined.

Lemma drop_tip_goes_through_witness :
  has_tip (self world_tipped) = true /\
  pipette_iterator.next (pipette_iterator.mk (Labware.wells rack) 1)
  = (Ok tip_2, pipette_iterator.mk (Labware.wells rack) 2) /\
  fst (drop_tip getxyz_ref (LTuple (Some 1) (Some 2) None) world_tipped) = Ok tt /\
  first_available_tip
    (self (snd (drop_tip getxyz_ref (LTuple (Some 1) (Some 2) None) world_tipped)))
  = Some tip_2.
Proof.
  split; [reflexivity|]. split; [reflexivity|].
  rewrite (@drop_tip_goes_through axes _ getxyz_ref
             (LTuple (Some 1) (Some 2) None) world_tipped
             (Some 1) (Some 2) None rack 0
             (pipette_iterator.mk (Labware.wells rack) 1)
             (pipette_iterator.mk (Labware.wells rack) 2) tip_2
             eq_refl eq_refl eq_refl eq_refl eq_refl eq_refl eq_refl).
  split; reflexivity.
Defined.

Lemma drop_tip_with_inventory_exhausted_witness :
  has_tip (self world_last_tip) = true /\
  fst (drop_tip getxyz_ref (LTuple (Some 1) (Some 2) None) world_last_tip)
  = Err StopIteration /\
  has_tip
    (self (snd (drop_tip getxyz_ref (LTuple (Some 1) (Some 2) None) world_last_tip)))
  = false.
Proof.
  split; [reflexivity|].
  rewrite (@drop_tip_with_inventory_exhausted axes _ getxyz_ref
             (LTuple (Some 1) (Some 2) None) world_last_tip
             (Some 1) (Some 2) None rack 0
             (pipette_iterator.mk (Labware.wells rack) 3)
             eq_refl eq_refl eq_refl eq_refl eq_refl eq_refl eq_refl).
  split; reflexivity.
Defined.

Lemma return_tip_goes_through_witness :
  has_tip (self world_tipped) = true /\
  is_active_tool (base (self world_tipped)) = true /\
  fst (return_tip getxyz_ref None world_tipped) = Ok tt /\
  has_tip (self (snd (return_tip getxyz_ref None world_tipped))) = false.
Proof.
  split; [reflexivity|]. split; [reflexivity|].
  rewrite (@return_tip_goes_through axes _ getxyz_ref None world_tipped
             (Some 10) (Some 100) (Some 40) rack 0
             eq_refl eq_refl eq_refl eq_refl eq_refl).
  split; reflexivity.
Defined.

Lemma return_tip_without_tip_witness :
  has_tip (self world_racked) = false /\
  is_active_tool (base (self world_racked)) = true /\
  fst (return_tip getxyz_ref None world_racked)
  = Err (ToolConfigurationError no_tip_to_drop_msg) /\
  log (snd (return_tip getxyz_ref None world_racked))
  = [safe_z_movement; move_to_xy (Some 10) (Some 100); move (Some (-25)) None].
Proof.
  split; [reflexivity|]. split; [reflexivity|].
  rewrite (@return_tip_without_tip axes _ getxyz_ref None world_racked
             (Some 10) (Some 100) (Some 40) eq_refl eq_refl eq_refl).
  split; reflexivity.
Defined.

Lemma aspirate_primes_an_unprimed_tool_witness :
  has_tip (self world_unprimed) = true /\
  is_primed (self world_unprimed) = false /\
  exists w' : world axes,
    aspirate getxyz_ref 50 (LWell well_A1) 2000 world_unprimed = (Ok tt, w') /\
    is_primed (self w') = true /\
    current_well (self w') = Some well_A1.
Proof.
  split; [reflexivity|]. split; [reflexivity|].
  destruct (@aspirate_primes_an_unprimed_tool axes _ getxyz_ref 50
              (LWell well_A1) 2000%Z world_unprimed (Some 50) (Some 20) (Some 5)
              eq_refl eq_refl eq_refl eq_refl)
    as (w' & Hrun & _ & _ & Hp & Hc).
  exists w'. split; [exact Hrun|]. split; [exact Hp | exact Hc].
Defined.

Lemma blowout_goes_through_witness :
  has_tip (self world_over_A1) = true /\
  current_well (self world_over_A1) = Some well_A1 /\
  log (snd (blowout 3000 world_over_A1))
  = [move_to_z (Some (15 + 5)); move_to_v 52 3000; prime_move tipped 2500].
Proof.
  split; [reflexivity|]. split; [reflexivity|].
  rewrite (@blowout_goes_through axes _ 3000%Z world_over_A1 well_A1
             eq_refl eq_refl eq_refl).
  reflexivity.
Defined.

Lemma mix_goes_through_witness :
  has_tip (self world_over_A1) = true /\
  current_well (self world_over_A1) = Some well_A1 /\
  fst (mix 10 2 5000 world_over_A1) = Ok tt /\
  Forall2 Qeq (plunger_targets (log (snd (mix 10 2 5000 world_over_A1))))
          [48; 48 - 1; 48; 48 - 1; 48].
Proof.
  split; [reflexivity|]. split; [reflexivity|].
  rewrite (@mix_goes_through axes _ 10 2%Z 5000%Z world_over_A1 well_A1
             eq_refl eq_refl eq_refl).
  split; [reflexivity|].
  vm_compute. repeat constructor.
Defined.

Lemma stir_goes_through_witness :
  has_tip (self world_over_A1) = true /\
  current_well (self world_over_A1) = Some well_A1 /\
  Qeq_bool (pos_X (get_position (machine world_over_A1)))
           (py_round (Well.x well_A1)) = true /\
  fst (stir 2 None world_over_A1) = Ok tt /\
  List.length (log (snd (stir 2 None world_over_A1))) = 5%nat.
Proof.
  split; [reflexivity|]. split; [reflexivity|]. split; [reflexivity|].
  assert (Hx : Qeq_bool (pos_X (get_position (machine world_over_A1)))
                        (py_round (Well.x well_A1)) = true) by reflexivity.
  rewrite (@stir_goes_through axes _ 2%Z None world_over_A1 well_A1
             eq_refl eq_refl eq_refl (or_introl Hx)).
  split; reflexivity.
Defined.

Lemma stir_height_zero_is_no_height_witness :
  0 == 0 /\ stir 2 (Some 0) world_over_A1 = stir 2 None world_over_A1.
Proof.
  split; [reflexivity|].
  apply (@stir_height_zero_is_no_height axes _ 2%Z 0 world_over_A1).
  reflexivity.
Defined.

Lemma add_tiprack_holds_the_first_tip_witness :
  Labware.wells rack = tip_1 :: [tip_2; tip_3] /\
  exists w' : world axes,
    add_tiprack (RackOne rack) world0 = (Ok tt, w') /\
    first_available_tip (self w') = Some tip_1.
Proof.
  split; [reflexivity|].
  destruct (@add_tiprack_holds_the_first_tip axes rack tip_1 [tip_2; tip_3]
              world0 eq_refl) as (w' & Hrun & Hf & _).
  exists w'. split; [exact Hrun | exact Hf].
Defined.

Lemma add_tiprack_failures_witness :
  Labware.wells empty_rack = [] /\
  fst (add_tiprack (RackOne empty_rack) world0) = Err StopIteration /\
  first_available_tip (self (snd (add_tiprack (RackOne empty_rack) world0))) = None.
Proof.
  split; [reflexivity|].
  rewrite (proj1 (@add_tiprack_failures axes world0) empty_rack eq_refl).
  split; reflexivity.
Defined.

Lemma return_tip_returns_only_with_tip_witness :
  fst (return_tip getxyz_ref None world_tipped) = Ok tt /\
  has_tip (self world_tipped) = true /\
  has_tip (self (snd (return_tip getxyz_ref None world_tipped))) = false.
Proof.
  split; [reflexivity|].
  exact (@return_tip_returns_only_with_tip axes _ getxyz_ref None
           world_tipped eq_refl).
Defined.
